(** * AutoMarket: commission resolution and transaction lifecycle

    A shallow embedding of the backend models
    [backend/src/models/CommissionSetting.ts], [Commission.ts],
    [Transaction.ts], [BaseModel.ts] and of the models around them, and
    the properties of the commission resolver, of the transaction
    lifecycle and of those models proved on it.

    Conventions of the embedding.
    - A JavaScript number is an IEEE 754 double: Rocq's primitive
      [float], with the kernel's arithmetic.
    - A DECIMAL column holds an exact decimal in the database (a [Qc]
      in a row).  The connection of [config/database.ts] installs no
      type parser and the models do not parse rows, so that the code
      reads such a column of a fetched row as the string PostgreSQL
      prints for it ([JS.Numeric]): truthy whatever its value, compared
      with another such string character by character, and converted to
      the nearest double by arithmetic and by a comparison with a number.
      What SQL computes itself (ORDER BY, SUM, COUNT) is exact.
    - A table read or written by key is a [gmap] from the [id] column to
      the row; the commission settings, which are only scanned, are a
      list of rows, in the order in which the database delivers rows
      that no ORDER BY key separates.  SQL does not fix that order.
    - An [async] method that cannot throw is a computation in the state
      monad [M] over the [World]: the tables, the wall clock and the
      random source.  One that can throw is a computation in [Try]: it
      ends in a value or in the exception thrown, and what it wrote
      before throwing stays written.  A [patch] or [insert] goes through
      objection's validation against the model's [jsonSchema], then
      through the hook of [BaseModel], then to the table as the
      migration creates it.  Connection errors are not modelled, and
      identifiers are taken to be well-formed uuids. *)

From Stdlib Require Import ZArith QArith Qcanon Qround Lia.
From Stdlib Require Import Ascii String Sorting.Sorted.
From Stdlib Require Import Floats.
From Stdlib Require Uint63.
From stdpp Require Import gmap strings list fin_maps pretty.

Local Open Scope Z_scope.

(** ** Strings *)

(** [String.prototype.padStart] with a one-character filler. *)
Definition padStart (targetLength : nat) (filler : ascii) (s : string)
  : string :=
  string_of_list_ascii (replicate (targetLength - String.length s) filler)
  +:+ s.

(** [String.prototype.substring] for [start <= end]. *)
Definition substring (start finish : nat) (s : string) : string :=
  String.substring start (finish - start) s.

Definition upper (c : ascii) : ascii :=
  let n := nat_of_ascii c in
  if ((97 <=? n) && (n <=? 122))%nat then ascii_of_nat (n - 32) else c.

Fixpoint toUpperCase (s : string) : string :=
  match s with
  | EmptyString => EmptyString
  | String c rest => String (upper c) (toUpperCase rest)
  end.

(** ** JavaScript numbers and numeric properties *)

Module JS.

Definition number : Type := float.

Definition Qc_of_Z (z : Z) : Qc := Q2Qc (inject_Z z).

(** The double of an integer; exact below 2^53. *)
Definition of_Z (z : Z) : number := of_uint63 (Uint63.of_Z z).

(** What a numeric property holds: a number, or the string that
    PostgreSQL prints for the value [q] of a DECIMAL column with [scale]
    decimals, which is what a fetched row carries. *)
Inductive value : Type :=
| Num (x : number)
| Numeric (scale : nat) (q : Qc).

(** [q] in units of 10^-scale.  A stored [q] has no more than [scale]
    decimals, and the floor is exact. *)
Definition unscaled (scale : nat) (q : Qc) : Z :=
  Qfloor (q * inject_Z (10 ^ Z.of_nat scale)).

(** The string itself: sign, integer part, and [scale] decimals. *)
Definition text (scale : nat) (q : Qc) : string :=
  let n := unscaled scale q in
  let unit := 10 ^ Z.of_nat scale in
  let sign := if n <? 0 then "-" else "" in
  let whole := pretty (Z.abs n / unit) in
  match scale with
  | O => sign +:+ whole
  | S _ =>
      sign +:+ whole +:+ "."
      +:+ padStart scale "0" (pretty (Z.abs n mod unit))
  end.

(** [ToNumber]: of the string, the double nearest to the decimal it
    denotes, as the correctly rounded quotient of two integers that are
    doubles themselves (up to 15 digits, which covers every DECIMAL
    column of the schema). *)
Definition toNumber (v : value) : number :=
  match v with
  | Num x => x
  | Numeric scale q =>
      let n := unscaled scale q in
      let x := (of_Z (Z.abs n) / of_Z (10 ^ Z.of_nat scale))%float in
      if n <? 0 then (- x)%float else x
  end.

(** [a < b]: two strings are compared by their characters, anything
    else as numbers (false when either is NaN). *)
Definition lt (a b : value) : bool :=
  match a, b with
  | Numeric sa qa, Numeric sb qb => String.ltb (text sa qa) (text sb qb)
  | _, _ => (toNumber a <? toNumber b)%float
  end.

(** [a > b] *)
Definition gt (a b : value) : bool := lt b a.

(** [a * b] and [a / b]: on numbers, strings converted. *)
Definition mul (a b : value) : value :=
  Num (toNumber a * toNumber b)%float.

Definition div (a b : value) : value :=
  Num (toNumber a / toNumber b)%float.

(** Truthiness of an optional numeric property: [undefined], [null],
    the numbers 0 and NaN are falsy; a string that is not empty, "0.00"
    included, is truthy. *)
Definition truthy (x : option value) : bool :=
  match x with
  | Some (Num x) => negb ((x =? 0)%float || is_nan x)
  | Some (Numeric _ _) => true
  | None => false
  end.

(** [x && test(x)] as a condition: the test is made of a truthy [x]
    only. *)
Definition and_then (x : option value) (test : value -> bool) : bool :=
  match x with
  | Some m => truthy x && test m
  | None => false
  end.

(** [isFinite(v)] *)
Definition isFinite (v : value) : bool :=
  negb (is_nan (toNumber v) || is_infinity (toNumber v)).

End JS.

Declare Scope js_scope.
Delimit Scope js_scope with js.
Bind Scope js_scope with JS.value.
Infix "*" := JS.mul : js_scope.
Infix "/" := JS.div : js_scope.
Infix "<" := JS.lt : js_scope.
Infix ">" := JS.gt : js_scope.

(** A [Date]: its time value and the calendar fields the models read. *)
Record Date : Type := mkDate {
getTime : Z;
getFullYear : Z;
getMonth : Z;   (* 0 .. 11 *)
getDate : Z     (* 1 .. 31 *)
}.

(** ** Enumerations *)

Inductive UserRole : Type := BUYER | SELLER | DEALER | ADMIN.

Inductive CommissionType : Type := PERCENTAGE | FIXED.

Inductive TransactionStatus : Type :=
PENDING | PROCESSING | COMPLETED | CANCELLED | REFUNDED.

Inductive VehicleStatus : Type :=
AVAILABLE | RESERVED | SOLD | INACTIVE.

#[global] Instance UserRole_eq_dec : EqDecision UserRole.
Proof. solve_decision. Defined.

#[global] Instance CommissionType_eq_dec : EqDecision CommissionType.
Proof. solve_decision. Defined.

#[global] Instance TransactionStatus_eq_dec : EqDecision TransactionStatus.
Proof. solve_decision. Defined.

(** ** Exceptions *)

(** What a query of the models throws: objection's [ValidationError],
    when the object given to [patch] or [insert] does not meet the
    model's [jsonSchema], and the [DBError] that wraps PostgreSQL's
    refusal of a statement naming a column the table does not have. *)
Inductive Thrown : Type := ValidationError | DBError.

#[global] Instance Thrown_eq_dec : EqDecision Thrown.
Proof. solve_decision. Defined.

(** A computation over the state [S] that ends in a value or in an
    exception; the state it leaves is the one reached at that point. *)
Definition Try (S A : Type) : Type := S -> (Thrown + A) * S.

#[global] Instance Try_ret {S} : MRet (Try S) := fun A a s => (inr a, s).

#[global] Instance Try_bind {S} : MBind (Try S) :=
  fun A B k m s =>
    match m s with
    | (inr a, s') => k a s'
    | (inl e, s') => (inl e, s')
    end.

Definition throw {S A} (e : Thrown) : Try S A := fun s => (inl e, s).

(** What the computation ends in, and the state it leaves. *)
Definition outcome {S A} (m : Try S A) (s : S) : Thrown + A := fst (m s).
Definition after {S A} (m : Try S A) (s : S) : S := snd (m s).

(** A [typeof] distinction the schemas make: a property declared
    [type: ['string', 'null']] takes a string or null, and a [Date]
    object is neither. *)
Definition string_or_null {A} (date : option A) : bool :=
  match date with Some _ => false | None => true end.

(** ** CommissionSetting *)

Module CommissionSetting.

(** A row of [commission_settings]: [value] is DECIMAL(10, 4), the
    prices are DECIMAL(12, 2). *)
Record t : Type := mk {
  id : string;
  created_at : Date;
  name : string;
  description : option string;
  type : CommissionType;
  value : Qc;
  min_price : option Qc;
  max_price : option Qc;
  user_role : option UserRole;
  is_active : bool;
  priority : Z
}.

(** [this.value], [this.min_price] and [this.max_price] of the fetched
    row. *)
Definition value_of (this : t) : JS.value := JS.Numeric 4 (value this).

Definition min_price_of (this : t) : option JS.value :=
  JS.Numeric 2 <$> min_price this.

Definition max_price_of (this : t) : option JS.value :=
  JS.Numeric 2 <$> max_price this.

Definition appliesToPrice (this : t) (price : JS.value) : bool :=
  if JS.and_then (min_price_of this) (fun min_price => price < min_price)%js
  then false
  else if JS.and_then (max_price_of this)
            (fun max_price => price > max_price)%js
  then false
  else true.

Definition appliesToRole (this : t) (role : option UserRole) : bool :=
  match user_role this with
  | None => true
  | Some r => bool_decide (Some r = role)
  end.

Definition calculateAmount (this : t) (price : JS.value) : JS.value :=
  match type this with
  | PERCENTAGE => (price * (value_of this / JS.Num 100%float))%js
  | FIXED => value_of this
  end.

(** [ORDER BY priority DESC, created_at ASC]: [before a b] when row
    [a] may precede row [b]. *)
Definition before (a b : t) : bool :=
  (priority b <? priority a)
  || ((priority a =? priority b) && (getTime (created_at a) <=? getTime (created_at b))).

Fixpoint place (x : t) (rows : list t) : list t :=
  match rows with
  | [] => [x]
  | y :: rest => if before x y then x :: y :: rest else y :: place x rest
  end.

(** The rows in the order of the keys; rows tied on both keys are left
    in the order in which they are given. *)
Definition orderBy (rows : list t) : list t := foldr place [] rows.

(** Every row may precede all the rows after it. *)
Definition ordered (rows : list t) : Prop :=
  StronglySorted (fun a b => before a b = true) rows.

(** Two rows that the ORDER BY does not separate. *)
Definition tied (a b : t) : Prop :=
  priority a = priority b
  /\ getTime (created_at a) = getTime (created_at b).

(** The [for ... of] loop of [findApplicable]. *)
Fixpoint scan (price : JS.value) (userRole : option UserRole)
  (settings : list t) : option t :=
  match settings with
  | [] => None
  | setting :: rest =>
      if appliesToPrice setting price && appliesToRole setting userRole
      then Some setting
      else scan price userRole rest
  end.

End CommissionSetting.

(** ** User, Vehicle, Transaction, Commission rows *)

Module User.

(** The part of [User] the commission resolver reads. *)
Record t : Type := mk {
  id : string;
  role : UserRole
}.

End User.

(** The columns of a patch that are set, by name. *)
Definition column {A} (name : string) (x : option A) : list string :=
  match x with Some _ => [name] | None => [] end.

(** The statement names only columns that the table has. *)
Definition known (columns written : list string) : bool :=
  forallb (fun c => bool_decide (c ∈ columns)) written.

Module Vehicle.

(** The columns of a row of [vehicles] that the lifecycle and the
    favorites read or write. *)
Record t : Type := mk {
  id : string;
  updated_at : Date;
  status : VehicleStatus;
  sold_at : option Date;
  favorites_count : Z
}.

(** [Partial<Vehicle>], the argument of [patch]. *)
Record Patch : Type := mkPatch {
  set_status : option VehicleStatus;
  set_sold_at : option Date;
  set_favorites_count : option Z;
  set_updated_at : option Date
}.

(** [jsonSchema] on a patch: [sold_at] is declared a string or null. *)
Definition valid (p : Patch) : bool := string_or_null (set_sold_at p).

Definition patch (p : Patch) (row : t) : t :=
  {| id := id row;
     updated_at := default (updated_at row) (set_updated_at p);
     status := default (status row) (set_status p);
     sold_at := from_option Some (sold_at row) (set_sold_at p);
     favorites_count :=
       default (favorites_count row) (set_favorites_count p) |}.

End Vehicle.

Module Transaction.

(** A row of [transactions]; the amounts are DECIMAL(12, 2) and
    DECIMAL(10, 2). *)
Record t : Type := mk {
  id : string;
  created_at : Date;
  updated_at : Date;
  transaction_number : string;
  vehicle_id : string;
  buyer_id : string;
  seller_id : string;
  price : Qc;
  commission_amount : Qc;
  net_amount : Qc;
  status : TransactionStatus;
  payment_method : option string;
  payment_reference : option string;
  notes : option string;
  completed_at : option Date;
  cancelled_at : option Date;
  cancelled_reason : option string;
  (* relation, present when fetched *)
  seller : option User.t
}.

(** [this.price] of the fetched row. *)
Definition price_of (this : t) : JS.value := JS.Numeric 2 (price this).

(** [Partial<Transaction>], the argument of [patch]. *)
Record Patch : Type := mkPatch {
  set_status : option TransactionStatus;
  set_payment_reference : option string;
  set_completed_at : option Date;
  set_cancelled_reason : option string;
  set_cancelled_at : option Date;
  set_updated_at : option Date
}.

(** [jsonSchema] on a patch (no property is required of a patch):
    [completed_at] and [cancelled_at] are declared strings or null.  The
    status is one of the enumeration by its type; a payment reference,
    declared a string of at most 255 characters, is only ever set
    together with [completed_at]. *)
Definition valid (p : Patch) : bool :=
  string_or_null (set_completed_at p) && string_or_null (set_cancelled_at p).

Definition patch (p : Patch) (row : t) : t :=
  {| id := id row;
     created_at := created_at row;
     updated_at := default (updated_at row) (set_updated_at p);
     transaction_number := transaction_number row;
     vehicle_id := vehicle_id row;
     buyer_id := buyer_id row;
     seller_id := seller_id row;
     price := price row;
     commission_amount := commission_amount row;
     net_amount := net_amount row;
     status := default (status row) (set_status p);
     payment_method := payment_method row;
     payment_reference :=
       from_option Some (payment_reference row) (set_payment_reference p);
     notes := notes row;
     completed_at := from_option Some (completed_at row) (set_completed_at p);
     cancelled_at := from_option Some (cancelled_at row) (set_cancelled_at p);
     cancelled_reason :=
       from_option Some (cancelled_reason row) (set_cancelled_reason p);
     seller := seller row |}.

Definition canBeCancelled (this : t) : bool :=
  bool_decide (status this ∈ [PENDING; PROCESSING]).

Definition canBeCompleted (this : t) : bool :=
  bool_decide (status this = PROCESSING).

End Transaction.

Module Commission.

(** A row of [commissions]: [amount] is DECIMAL(10, 2), [percentage]
    DECIMAL(5, 2).  The table has no [updated_at] column. *)
Record t : Type := mk {
  id : string;
  created_at : Date;
  transaction_id : string;
  commission_setting_id : option string;
  amount : Qc;
  percentage : option Qc;
  is_paid : bool;
  paid_at : option Date;
  payment_reference : option string;
  (* relation, present when fetched *)
  transaction : option Transaction.t
}.

(** The columns the migration gives the table. *)
Definition columns : list string :=
  ["id"; "transaction_id"; "commission_setting_id"; "amount"; "percentage";
   "is_paid"; "paid_at"; "payment_reference"; "created_at"].

(** [this.amount] and [this.percentage] of the fetched row. *)
Definition amount_of (this : t) : JS.value := JS.Numeric 2 (amount this).

Definition percentage_of (this : t) : option JS.value :=
  JS.Numeric 2 <$> percentage this.

(** [Partial<Commission>], the argument of [patch]. *)
Record Patch : Type := mkPatch {
  set_is_paid : option bool;
  set_paid_at : option Date;
  set_payment_reference : option string;
  set_updated_at : option Date
}.

(** [jsonSchema] on a patch: [paid_at] is declared a string or null. *)
Definition valid (p : Patch) : bool := string_or_null (set_paid_at p).

(** The columns an UPDATE with the patch names. *)
Definition written (p : Patch) : list string :=
  column "is_paid" (set_is_paid p) ++ column "paid_at" (set_paid_at p)
  ++ column "payment_reference" (set_payment_reference p)
  ++ column "updated_at" (set_updated_at p).

Definition patch (p : Patch) (row : t) : t :=
  {| id := id row;
     created_at := created_at row;
     transaction_id := transaction_id row;
     commission_setting_id := commission_setting_id row;
     amount := amount row;
     percentage := percentage row;
     is_paid := default (is_paid row) (set_is_paid p);
     paid_at := from_option Some (paid_at row) (set_paid_at p);
     payment_reference :=
       from_option Some (payment_reference row) (set_payment_reference p);
     transaction := transaction row |}.

Definition getEffectivePercentage (this : t) : JS.value :=
  let otherwise :=
    match transaction this with
    | Some transaction =>
        if (Transaction.price_of transaction > JS.Num 0%float)%js
        then (amount_of this / Transaction.price_of transaction
              * JS.Num 100%float)%js
        else JS.Num 0%float
    | None => JS.Num 0%float
    end in
  match percentage_of this with
  | Some percentage =>
      if JS.truthy (Some percentage) then percentage else otherwise
  | None => otherwise
  end.

(** The value [calculateCommission] resolves to. *)
Record Calculation : Type := mkCalculation {
  calc_amount : JS.value;
  calc_percentage : JS.value;
  settingId : option string
}.

End Commission.
(** ** The world and the monad of [async] methods *)

Record World : Type := mkWorld {
  (* in the order the database delivers rows that no ORDER BY key
     separates *)
  commission_settings : list CommissionSetting.t;
  transactions : gmap string Transaction.t;
  vehicles : gmap string Vehicle.t;
  commissions : gmap string Commission.t;
  (* successive readings of [new Date()] and how many were taken *)
  clock : nat -> Date;
  clock_reads : nat;
  (* successive results of [Math.random()], each the numerator k of
     the double k / 2^53 in [0, 1), and how many were taken *)
  random : nat -> N;
  random_reads : nat
}.

Definition M (A : Type) : Type := World -> A * World.

#[global] Instance M_ret : MRet M := fun A a w => (a, w).

#[global] Instance M_bind : MBind M :=
  fun A B k m w => let '(a, w') := m w in k a w'.

Definition exec {A} (m : M A) (w : World) : World := snd (m w).
Definition eval {A} (m : M A) (w : World) : A := fst (m w).

(** [new Date()] *)
Definition new_Date : M Date := fun w =>
  (clock w (clock_reads w),
   {| commission_settings := commission_settings w;
      transactions := transactions w;
      vehicles := vehicles w;
      commissions := commissions w;
      clock := clock w;
      clock_reads := S (clock_reads w);
      random := random w;
      random_reads := random_reads w |}).

(** [Math.random()] *)
Definition Math_random : M N := fun w =>
  (random w (random_reads w),
   {| commission_settings := commission_settings w;
      transactions := transactions w;
      vehicles := vehicles w;
      commissions := commissions w;
      clock := clock w;
      clock_reads := clock_reads w;
      random := random w;
      random_reads := S (random_reads w) |}).

Definition update_transactions
  (f : gmap string Transaction.t -> gmap string Transaction.t) : M unit :=
  fun w =>
  (tt,
   {| commission_settings := commission_settings w;
      transactions := f (transactions w);
      vehicles := vehicles w;
      commissions := commissions w;
      clock := clock w;
      clock_reads := clock_reads w;
      random := random w;
      random_reads := random_reads w |}).

Definition update_vehicles
  (f : gmap string Vehicle.t -> gmap string Vehicle.t) : M unit :=
  fun w =>
  (tt,
   {| commission_settings := commission_settings w;
      transactions := transactions w;
      vehicles := f (vehicles w);
      commissions := commissions w;
      clock := clock w;
      clock_reads := clock_reads w;
      random := random w;
      random_reads := random_reads w |}).

Definition update_commissions
  (f : gmap string Commission.t -> gmap string Commission.t) : M unit :=
  fun w =>
  (tt,
   {| commission_settings := commission_settings w;
      transactions := transactions w;
      vehicles := vehicles w;
      commissions := f (commissions w);
      clock := clock w;
      clock_reads := clock_reads w;
      random := random w;
      random_reads := random_reads w |}).

(** ** Queries and lifecycle methods *)

(** A method that does not throw, as one that may. *)
Definition resolve {S A} (m : S -> A * S) : Try S A := fun s =>
  let '(a, s') := m s in (inr a, s').

(** [UPDATE ... WHERE p]: the rows that satisfy [p], by key and row, are
    patched; the others stay. *)
Definition patch_where {A} (p : string -> A -> bool) (f : A -> A)
  (rows : gmap string A) : gmap string A :=
  map_imap (fun k row => Some (if p k row then f row else row)) rows.

(** The number of rows an UPDATE with that WHERE clause writes. *)
Definition matched {A} (p : string -> A -> bool) (rows : gmap string A)
  : nat :=
  size (filter (fun kr => p kr.1 kr.2 = true) rows).

(** [CommissionSetting.findActive] *)
Definition findActive : M (list CommissionSetting.t) := fun w =>
  (CommissionSetting.orderBy
     (filter (fun s => CommissionSetting.is_active s = true)
        (commission_settings w)), w).

(** [CommissionSetting.findApplicable]; its query is the one of
    [findActive]. *)
Definition findApplicable (price : JS.value) (userRole : option UserRole)
  : M (option CommissionSetting.t) :=
  settings ← findActive;
  mret (CommissionSetting.scan price userRole settings).

(** [Commission.calculateCommission], of a fetched transaction. *)
Definition calculateCommission (transaction : Transaction.t)
  : M Commission.Calculation :=
  let price := Transaction.price_of transaction in
  setting ← findApplicable price (User.role <$> Transaction.seller transaction);
  match setting with
  | None =>
      mret {| Commission.calc_amount :=
                (price * JS.Num 0x1.999999999999ap-5%float)%js; (* 0.05 *)
              Commission.calc_percentage := JS.Num 5%float;
              Commission.settingId := None |}
  | Some setting =>
      let amount :=
        match CommissionSetting.type setting with
        | PERCENTAGE =>
            (price * (CommissionSetting.value_of setting
                      / JS.Num 100%float))%js
        | FIXED => CommissionSetting.value_of setting
        end in
      let percentage :=
        match CommissionSetting.type setting with
        | PERCENTAGE => CommissionSetting.value_of setting
        | FIXED => (amount / price * JS.Num 100%float)%js
        end in
      mret {| Commission.calc_amount := amount;
              Commission.calc_percentage := percentage;
              Commission.settingId := Some (CommissionSetting.id setting) |}
  end.

(** [BaseModel.$beforeUpdate], run on the patch of every [patch] query
    that passed validation. *)
Definition Transaction_beforeUpdate (p : Transaction.Patch)
  : M Transaction.Patch :=
  now ← new_Date;
  mret {| Transaction.set_status := Transaction.set_status p;
          Transaction.set_payment_reference :=
            Transaction.set_payment_reference p;
          Transaction.set_completed_at := Transaction.set_completed_at p;
          Transaction.set_cancelled_reason :=
            Transaction.set_cancelled_reason p;
          Transaction.set_cancelled_at := Transaction.set_cancelled_at p;
          Transaction.set_updated_at := Some now |}.

Definition Vehicle_beforeUpdate (p : Vehicle.Patch) : M Vehicle.Patch :=
  now ← new_Date;
  mret {| Vehicle.set_status := Vehicle.set_status p;
          Vehicle.set_sold_at := Vehicle.set_sold_at p;
          Vehicle.set_favorites_count := Vehicle.set_favorites_count p;
          Vehicle.set_updated_at := Some now |}.

Definition Commission_beforeUpdate (p : Commission.Patch)
  : M Commission.Patch :=
  now ← new_Date;
  mret {| Commission.set_is_paid := Commission.set_is_paid p;
          Commission.set_paid_at := Commission.set_paid_at p;
          Commission.set_payment_reference :=
            Commission.set_payment_reference p;
          Commission.set_updated_at := Some now |}.

(** [Transaction.query().where(...).patch(p)]: the patch is validated,
    stamped by the hook and written to the selected rows; the promise
    resolves to their number.  The table has all the columns written. *)
Definition Transaction_patch (selected : string -> Transaction.t -> bool)
  (p : Transaction.Patch) : Try World nat :=
  if Transaction.valid p then
    p ← resolve (Transaction_beforeUpdate p);
    rows ← resolve (fun w => (transactions w, w));
    resolve (update_transactions
               (patch_where selected (Transaction.patch p)));;
    mret (matched selected rows)
  else throw ValidationError.

(** [Vehicle.query().where(...).patch(p)] *)
Definition Vehicle_patch (selected : string -> Vehicle.t -> bool)
  (p : Vehicle.Patch) : Try World nat :=
  if Vehicle.valid p then
    p ← resolve (Vehicle_beforeUpdate p);
    rows ← resolve (fun w => (vehicles w, w));
    resolve (update_vehicles (patch_where selected (Vehicle.patch p)));;
    mret (matched selected rows)
  else throw ValidationError.

(** [Commission.query().where(...).patch(p)]: after validation and the
    hook, PostgreSQL refuses an UPDATE that names a column the table
    does not have. *)
Definition Commission_patch (selected : string -> Commission.t -> bool)
  (p : Commission.Patch) : Try World nat :=
  if Commission.valid p then
    p ← resolve (Commission_beforeUpdate p);
    if known Commission.columns (Commission.written p) then
      rows ← resolve (fun w => (commissions w, w));
      resolve (update_commissions
                 (patch_where selected (Commission.patch p)));;
      mret (matched selected rows)
    else throw DBError
  else throw ValidationError.

(** [this.$query()]: the row whose id is that of the instance. *)
Definition by_id {A} (id : string) : string -> A -> bool :=
  fun k _ => bool_decide (k = id).

(** [Transaction.complete] *)
Definition complete (this : Transaction.t) (paymentReference : string)
  : Try World unit :=
  completed_at ← resolve new_Date;
  Transaction_patch (by_id (Transaction.id this))
    {| Transaction.set_status := Some COMPLETED;
       Transaction.set_payment_reference := Some paymentReference;
       Transaction.set_completed_at := Some completed_at;
       Transaction.set_cancelled_reason := None;
       Transaction.set_cancelled_at := None;
       Transaction.set_updated_at := None |};;
  (* Mark vehicle as sold *)
  sold_at ← resolve new_Date;
  Vehicle_patch (by_id (Transaction.vehicle_id this))
    {| Vehicle.set_status := Some SOLD;
       Vehicle.set_sold_at := Some sold_at;
       Vehicle.set_favorites_count := None;
       Vehicle.set_updated_at := None |};;
  mret tt.

(** [Transaction.cancel] *)
Definition cancel (this : Transaction.t) (reason : string)
  : Try World unit :=
  cancelled_at ← resolve new_Date;
  Transaction_patch (by_id (Transaction.id this))
    {| Transaction.set_status := Some CANCELLED;
       Transaction.set_payment_reference := None;
       Transaction.set_completed_at := None;
       Transaction.set_cancelled_reason := Some reason;
       Transaction.set_cancelled_at := Some cancelled_at;
       Transaction.set_updated_at := None |};;
  (* Mark vehicle as available again *)
  Vehicle_patch (by_id (Transaction.vehicle_id this))
    {| Vehicle.set_status := Some AVAILABLE;
       Vehicle.set_sold_at := None;
       Vehicle.set_favorites_count := None;
       Vehicle.set_updated_at := None |};;
  mret tt.

(** [Transaction.process] *)
Definition process (this : Transaction.t) : Try World unit :=
  Transaction_patch (by_id (Transaction.id this))
    {| Transaction.set_status := Some PROCESSING;
       Transaction.set_payment_reference := None;
       Transaction.set_completed_at := None;
       Transaction.set_cancelled_reason := None;
       Transaction.set_cancelled_at := None;
       Transaction.set_updated_at := None |};;
  mret tt.

(** [Commission.markAsPaid] *)
Definition markAsPaid (this : Commission.t) (paymentReference : string)
  : Try World unit :=
  paid_at ← resolve new_Date;
  Commission_patch (by_id (Commission.id this))
    {| Commission.set_is_paid := Some true;
       Commission.set_paid_at := Some paid_at;
       Commission.set_payment_reference := Some paymentReference;
       Commission.set_updated_at := None |};;
  mret tt.

(** The rows [payBatch] selects:
    [whereIn('id', commissionIds).where('is_paid', false)]. *)
Definition selected (commissionIds : list string) (k : string)
  (row : Commission.t) : bool :=
  bool_decide (k ∈ commissionIds) && bool_decide (Commission.is_paid row = false).

(** [Commission.payBatch]; it resolves to the number of rows patched. *)
Definition payBatch (commissionIds : list string) (paymentReference : string)
  : Try World nat :=
  paid_at ← resolve new_Date;
  Commission_patch (selected commissionIds)
    {| Commission.set_is_paid := Some true;
       Commission.set_paid_at := Some paid_at;
       Commission.set_payment_reference := Some paymentReference;
       Commission.set_updated_at := None |}.

(** The world after one more reading of the clock. *)
Definition tick (w : World) : World := exec new_Date w.

(** ** Transaction numbers *)

Definition digit36 (d : N) : ascii :=
  default "0"%char
    (list_ascii_of_string "0123456789abcdefghijklmnopqrstuvwxyz"
       !! N.to_nat d).

(** [static_cast<int>(fraction)] for a fraction from 0 up to 36. *)
Definition digit_of (fraction : float) : N :=
  N.of_nat
    (length (filter (fun d => (JS.of_Z (Z.of_nat d) <=? fraction)%float = true)
               (seq 1 35))).

(** The carry of a rounding up through the digits written, last digit
    first: a digit 'z' is dropped and the carry moves on; with no digit
    left it reaches the integer part. *)
Fixpoint round_up (written : list N) : list N * bool :=
  match written with
  | [] => ([], true)
  | d :: rest =>
      if (d + 1 <? 36)%N then ((d + 1)%N :: rest, false) else round_up rest
  end.

(** The digits after the point of [x.toString(36)], as Node's engine
    produces them ([DoubleToRadixCString] of V8): digits are written,
    last first in [written], until the rest is below [delta], half the
    distance to the next double, and the last one is rounded up when
    the rest is nearer to it.  The second component tells that the
    rounding carried into the integer part. *)
Fixpoint fraction36 (fuel : nat) (fraction delta : float) (written : list N)
  : list N * bool :=
  match fuel with
  | O => (written, false)
  | S fuel' =>
      (* Shift up by one digit. *)
      let fraction := (fraction * 36)%float in
      let delta := (delta * 36)%float in
      (* Write digit. *)
      let digit := digit_of fraction in
      let written := digit :: written in
      (* Calculate remainder. *)
      let fraction := (fraction - JS.of_Z (Z.of_N digit))%float in
      (* Round to even. *)
      if ((0.5 <? fraction)%float
          || ((fraction =? 0.5)%float && N.odd digit))
         && (1 <? fraction + delta)%float
      then round_up written
      else if (delta <=? fraction)%float
           then fraction36 fuel' fraction delta written
           else (written, false)
  end.

(** [x.toString(36)] for the double x = k / 2^53 in [0, 1). *)
Definition toString36 (k : N) : string :=
  let x := (JS.of_Z (Z.of_N k) / 0x1p53)%float in
  let delta := (0.5 * (next_up x - x))%float in
  let delta := if (delta <? next_up 0)%float then next_up 0%float else delta in
  if (delta <=? x)%float then
    match fraction36 1100 x delta [] with
    | (_, true) => "1"
    | (written, false) =>
        "0." +:+ string_of_list_ascii (digit36 <$> reverse written)
    end
  else "0".

(** [Transaction.generateTransactionNumber] *)
Definition generateTransactionNumber : M string :=
  date ← new_Date;
  let year := getFullYear date in
  let month := padStart 2 "0" (pretty (getMonth date + 1)) in
  let day := padStart 2 "0" (pretty (getDate date)) in
  r ← Math_random;
  let random := toUpperCase (substring 2 8 (toString36 r)) in
  mret ("TXN-" +:+ pretty year +:+ month +:+ day +:+ "-" +:+ random).

(** ** The resolver as the specification words it *)

Module Resolver.

(** The price is within the optional [min_price, max_price] bounds, an
    absent bound being unbounded on its side. *)
Definition within_bounds (s : CommissionSetting.t) (p : Qc) : Prop :=
  (forall m, CommissionSetting.min_price s = Some m -> (m <= p)%Qc)
  /\ (forall m, CommissionSetting.max_price s = Some m -> (p <= m)%Qc).

(** The optional role constraint is absent or equals the seller role. *)
Definition role_holds (s : CommissionSetting.t) (role : option UserRole)
  : Prop :=
  CommissionSetting.user_role s = None
  \/ (exists r, CommissionSetting.user_role s = Some r /\ role = Some r).

(** The 5 % default. *)
Definition fallback (price : JS.value) : Commission.Calculation :=
  {| Commission.calc_amount :=
       (price * JS.Num 0x1.999999999999ap-5%float)%js;
     Commission.calc_percentage := JS.Num 5%float;
     Commission.settingId := None |}.

Definition sellerRole (tx : Transaction.t) : option UserRole :=
  User.role <$> Transaction.seller tx.

(** The fee of a percentage rule in exact arithmetic:
    price * value / 100. *)
Definition exact_fee (tx : Transaction.t) (s : CommissionSetting.t) : Qc :=
  (Transaction.price tx * (CommissionSetting.value s / JS.Qc_of_Z 100))%Qc.

End Resolver.

(** ** Sample data: the rows of [CommissionSetting.createDefault] *)

Module Sample.

Definition day : Date :=
  {| getTime := 1705320000000; getFullYear := 2024; getMonth := 0;
     getDate := 15 |}.

Definition at_time (t : Z) : Date :=
  {| getTime := t; getFullYear := 2024; getMonth := 0; getDate := 15 |}.

Definition standard : CommissionSetting.t :=
  {| CommissionSetting.id := "cs-standard";
     CommissionSetting.created_at := at_time 1;
     CommissionSetting.name := "Comision estandar";
     CommissionSetting.description := None;
     CommissionSetting.type := PERCENTAGE;
     CommissionSetting.value := JS.Qc_of_Z 5;
     CommissionSetting.min_price := None;
     CommissionSetting.max_price := None;
     CommissionSetting.user_role := None;
     CommissionSetting.is_active := true;
     CommissionSetting.priority := 0 |}.

Definition premium : CommissionSetting.t :=
  {| CommissionSetting.id := "cs-premium";
     CommissionSetting.created_at := at_time 2;
     CommissionSetting.name := "Comision premium";
     CommissionSetting.description := None;
     CommissionSetting.type := PERCENTAGE;
     CommissionSetting.value := JS.Qc_of_Z 3;
     CommissionSetting.min_price := None;
     CommissionSetting.max_price := None;
     CommissionSetting.user_role := Some DEALER;
     CommissionSetting.is_active := true;
     CommissionSetting.priority := 10 |}.

Definition economy : CommissionSetting.t :=
  {| CommissionSetting.id := "cs-economy";
     CommissionSetting.created_at := at_time 3;
     CommissionSetting.name := "Comision vehiculos economicos";
     CommissionSetting.description := None;
     CommissionSetting.type := FIXED;
     CommissionSetting.value := JS.Qc_of_Z 500;
     CommissionSetting.min_price := None;
     CommissionSetting.max_price := Some (JS.Qc_of_Z 10000);
     CommissionSetting.user_role := None;
     CommissionSetting.is_active := true;
     CommissionSetting.priority := 5 |}.

Definition luxury : CommissionSetting.t :=
  {| CommissionSetting.id := "cs-luxury";
     CommissionSetting.created_at := at_time 4;
     CommissionSetting.name := "Comision vehiculos de lujo";
     CommissionSetting.description := None;
     CommissionSetting.type := PERCENTAGE;
     CommissionSetting.value := JS.Qc_of_Z 2;
     CommissionSetting.min_price := Some (JS.Qc_of_Z 50000);
     CommissionSetting.max_price := None;
     CommissionSetting.user_role := None;
     CommissionSetting.is_active := true;
     CommissionSetting.priority := 15 |}.

(** A rule whose stored maximum is 0. *)
Definition capped_at_zero : CommissionSetting.t :=
  {| CommissionSetting.id := "cs-zero-cap";
     CommissionSetting.created_at := at_time 5;
     CommissionSetting.name := "Tope cero";
     CommissionSetting.description := None;
     CommissionSetting.type := PERCENTAGE;
     CommissionSetting.value := JS.Qc_of_Z 1;
     CommissionSetting.min_price := None;
     CommissionSetting.max_price := Some 0%Qc;
     CommissionSetting.user_role := None;
     CommissionSetting.is_active := true;
     CommissionSetting.priority := 0 |}.

Definition sale_at (p : Qc) (st : TransactionStatus)
  (role : option UserRole) : Transaction.t :=
  {| Transaction.id := "tx-1";
     Transaction.created_at := day;
     Transaction.updated_at := day;
     Transaction.transaction_number := "TXN-20240115-ABC123";
     Transaction.vehicle_id := "veh-1";
     Transaction.buyer_id := "usr-buyer";
     Transaction.seller_id := "usr-seller";
     Transaction.price := p;
     Transaction.commission_amount := 0%Qc;
     Transaction.net_amount := p;
     Transaction.status := st;
     Transaction.payment_method := None;
     Transaction.payment_reference := None;
     Transaction.notes := None;
     Transaction.completed_at := None;
     Transaction.cancelled_at := None;
     Transaction.cancelled_reason := None;
     Transaction.seller :=
       (fun r => {| User.id := "usr-seller"; User.role := r |}) <$> role |}.

Definition sale (p : Z) (st : TransactionStatus) (role : option UserRole)
  : Transaction.t :=
  sale_at (JS.Qc_of_Z p) st role.

Definition listing (st : VehicleStatus) : Vehicle.t :=
  {| Vehicle.id := "veh-1"; Vehicle.updated_at := day;
     Vehicle.status := st; Vehicle.sold_at := None;
     Vehicle.favorites_count := 1 |}.

Definition fee (k : string) (paid : bool) : Commission.t :=
  {| Commission.id := k;
     Commission.created_at := day;
     Commission.transaction_id := "tx-1";
     Commission.commission_setting_id := None;
     Commission.amount := JS.Qc_of_Z 500;
     Commission.percentage := None;
     Commission.is_paid := paid;
     Commission.paid_at := if paid then Some (at_time 7) else None;
     Commission.payment_reference := if paid then Some "old-ref" else None;
     Commission.transaction := None |}.

(** A world holding the given rules, one sale and its listing; the clock
    reads 1705320000000 + n at its n-th reading and [Math.random()]
    always yields [rnd / 2^53]. *)
Definition world (rules : list CommissionSetting.t) (tx : Transaction.t)
  (v : Vehicle.t) (rnd : N) : World :=
  {| commission_settings := rules;
     transactions := {[ Transaction.id tx := tx ]};
     vehicles := {[ Vehicle.id v := v ]};
     commissions :=
       {[ "com-1" := fee "com-1" true; "com-2" := fee "com-2" false;
          "com-3" := fee "com-3" false ]};
     clock := fun n => at_time (1705320000000 + Z.of_nat n);
     clock_reads := 0;
     random := fun _ => rnd;
     random_reads := 0 |}.

Definition defaults : list CommissionSetting.t :=
  [standard; premium; economy; luxury].

(** A dealer selling at 20000 against the default rules. *)
Definition dealer_sale : Transaction.t := sale 20000 PENDING (Some DEALER).

Definition dealer_world : World :=
  world defaults dealer_sale (listing RESERVED) (2 ^ 52).

(** A buyer's sale at price 0 against the default rules. *)
Definition free_sale : Transaction.t := sale 0 PENDING (Some BUYER).

Definition free_world : World :=
  world defaults free_sale (listing RESERVED) (2 ^ 52).

(** A buyer's sale at 9000 against the default rules. *)
Definition modest_sale : Transaction.t := sale 9000 PENDING (Some BUYER).

Definition modest_world : World :=
  world defaults modest_sale (listing RESERVED) (2 ^ 52).

(** A dealer's sale at 19999.99 against the default rules. *)
Definition odd_sale : Transaction.t :=
  sale_at (Q2Qc (1999999 # 100)) PENDING (Some DEALER).

Definition odd_world : World :=
  world defaults odd_sale (listing RESERVED) (2 ^ 52).

(** A sale in processing, the status from which a completion is
    meant. *)
Definition paid_sale : Transaction.t := sale 20000 PROCESSING (Some DEALER).

Definition paid_world : World :=
  world defaults paid_sale (listing RESERVED) (2 ^ 52).

(** A completed sale. *)
Definition settled_sale : Transaction.t := sale 20000 COMPLETED (Some DEALER).

Definition settled_world : World :=
  world defaults settled_sale (listing SOLD) (2 ^ 52).

(** Two rules that the ORDER BY does not separate, and the same table
    delivered in the two possible orders. *)
Definition five : CommissionSetting.t :=
  {| CommissionSetting.id := "cs-five";
     CommissionSetting.created_at := at_time 9;
     CommissionSetting.name := "Cinco";
     CommissionSetting.description := None;
     CommissionSetting.type := PERCENTAGE;
     CommissionSetting.value := JS.Qc_of_Z 5;
     CommissionSetting.min_price := None;
     CommissionSetting.max_price := None;
     CommissionSetting.user_role := None;
     CommissionSetting.is_active := true;
     CommissionSetting.priority := 0 |}.

Definition seven : CommissionSetting.t :=
  {| CommissionSetting.id := "cs-seven";
     CommissionSetting.created_at := at_time 9;
     CommissionSetting.name := "Siete";
     CommissionSetting.description := None;
     CommissionSetting.type := PERCENTAGE;
     CommissionSetting.value := JS.Qc_of_Z 7;
     CommissionSetting.min_price := None;
     CommissionSetting.max_price := None;
     CommissionSetting.user_role := None;
     CommissionSetting.is_active := true;
     CommissionSetting.priority := 0 |}.

Definition tied_world : World :=
  world [five; seven] dealer_sale (listing RESERVED) (2 ^ 52).

Definition tied_world' : World :=
  world [seven; five] dealer_sale (listing RESERVED) (2 ^ 52).

(** The default rules delivered in another order. *)
Definition shuffled_world : World :=
  world [luxury; economy; standard; premium] dealer_sale
    (listing RESERVED) (2 ^ 52).

(** A commission fetched with its transaction: 500 on a sale at 10000,
    the percentage stored as 0. *)
Definition zero_rated : Commission.t :=
  {| Commission.id := "com-0";
     Commission.created_at := day;
     Commission.transaction_id := "tx-1";
     Commission.commission_setting_id := None;
     Commission.amount := JS.Qc_of_Z 500;
     Commission.percentage := Some 0%Qc;
     Commission.is_paid := false;
     Commission.paid_at := None;
     Commission.payment_reference := None;
     Commission.transaction := Some (sale 10000 COMPLETED None) |}.

(** The dealer's world with two commissions on the sale: 0.10, paid,
    and 0.20, not paid. *)
Definition cents (k : string) (amount : Qc) (paid : bool) : Commission.t :=
  {| Commission.id := k;
     Commission.created_at := day;
     Commission.transaction_id := "tx-1";
     Commission.commission_setting_id := None;
     Commission.amount := amount;
     Commission.percentage := None;
     Commission.is_paid := paid;
     Commission.paid_at := None;
     Commission.payment_reference := None;
     Commission.transaction := None |}.

Definition cents_world : World :=
  exec (update_commissions
          (fun _ => {[ "com-a" := cents "com-a" (Q2Qc (10 # 100)) true;
                       "com-b" := cents "com-b" (Q2Qc (20 # 100)) false ]}))
    dealer_world.

End Sample.

(** ** SQL aggregates over a table *)

(** [SUM(f)] over the rows; 0 for no row, as [stats.total || '0']
    reads it. *)
Definition sum_rows {A} (f : A -> Qc) (rows : gmap string A) : Qc :=
  map_fold (fun _ row acc => (f row + acc)%Qc) 0%Qc rows.

(** [COUNT(CASE WHEN p THEN 1 END)] *)
Definition count_rows {A} (p : A -> bool) (rows : gmap string A) : nat :=
  size (filter (fun kr => p kr.2 = true) rows).

(** [WHERE p] *)
Definition where_rows {A} (p : A -> bool) (rows : gmap string A)
  : gmap string A :=
  filter (fun kr => p kr.2 = true) rows.

(** A SUM as the row of the result carries it: null over no row, else
    the exact sum, which [node-postgres] hands over as a string. *)
Definition SUM {A} (f : A -> Qc) (rows : gmap string A) : option Qc :=
  if (size rows =? 0)%nat then None else Some (sum_rows f rows).

(** [parseFloat(sum || '0')]: the double nearest to the sum, 0 for
    null. *)
Definition parseFloat_or_zero (sum : option Qc) : JS.number :=
  match sum with
  | Some q => JS.toNumber (JS.Numeric 2 q)
  | None => 0%float
  end.

Module SellerStats.

(** The value [getSellerStats] resolves to. *)
Record t : Type := mk {
  totalEarned : JS.number;
  totalPaid : JS.number;
  totalPending : JS.number;
  pendingCount : nat
}.

End SellerStats.

(** The join of [getSellerStats]: the commission's transaction exists
    and is a sale of the seller. *)
Definition sold_by (w : World) (sellerId : string) (c : Commission.t)
  : bool :=
  match transactions w !! Commission.transaction_id c with
  | Some t => bool_decide (Transaction.seller_id t = sellerId)
  | None => false
  end.

(** The commissions on the sales of a seller. *)
Definition earned_by (w : World) (sellerId : string)
  : gmap string Commission.t :=
  where_rows (sold_by w sellerId) (commissions w).

(** What is paid and what is pending of a commission: the two CASE
    expressions of the query. *)
Definition paid_part (c : Commission.t) : Qc :=
  if Commission.is_paid c then Commission.amount c else 0%Qc.

Definition pending_part (c : Commission.t) : Qc :=
  if negb (Commission.is_paid c) then Commission.amount c else 0%Qc.

(** [Commission.getSellerStats] *)
Definition getSellerStats (sellerId : string) : M SellerStats.t := fun w =>
  let rows := earned_by w sellerId in
  ({| SellerStats.totalEarned :=
        parseFloat_or_zero (SUM Commission.amount rows);
      SellerStats.totalPaid := parseFloat_or_zero (SUM paid_part rows);
      SellerStats.totalPending := parseFloat_or_zero (SUM pending_part rows);
      SellerStats.pendingCount :=
        count_rows (fun c => negb (Commission.is_paid c)) rows |}, w).

Module TransactionStats.

Record t : Type := mk {
  total : nat;
  completed : nat;
  pending : nat;
  cancelled : nat;
  totalAmount : JS.number
}.

End TransactionStats.

Inductive Party : Type := AsBuyer | AsSeller.

(** [role === 'buyer' ? 'buyer_id' : 'seller_id'] *)
Definition party_id (role : Party) : Transaction.t -> string :=
  match role with
  | AsBuyer => Transaction.buyer_id
  | AsSeller => Transaction.seller_id
  end.

(** [Transaction.calculateStats] *)
Definition calculateStats (userId : string) (role : Party)
  : M TransactionStats.t := fun w =>
  let rows :=
    where_rows (fun t => bool_decide (party_id role t = userId))
      (transactions w) in
  let has st := fun t => bool_decide (Transaction.status t = st) in
  ({| TransactionStats.total := size rows;
      TransactionStats.completed := count_rows (has COMPLETED) rows;
      TransactionStats.pending := count_rows (has PENDING) rows;
      TransactionStats.cancelled := count_rows (has CANCELLED) rows;
      TransactionStats.totalAmount :=
        parseFloat_or_zero
          (SUM (fun t => if has COMPLETED t
                         then Transaction.price t else 0%Qc) rows) |}, w).

(** ** Character classes of a transaction number *)

Definition is_digit (c : ascii) : bool :=
  let n := nat_of_ascii c in ((48 <=? n) && (n <=? 57))%nat.

(** A decimal digit or an upper-case letter. *)
Definition is_upper_alnum (c : ascii) : bool :=
  let n := nat_of_ascii c in
  (((48 <=? n) && (n <=? 57)) || ((65 <=? n) && (n <=? 90)))%nat.

Definition all_chars (p : ascii -> bool) (s : string) : bool :=
  forallb p (list_ascii_of_string s).

(** [p] holds of [from], [from + 1], ..., [from + n - 1]. *)
Fixpoint all_from (p : Z -> bool) (n : nat) (from : Z) : bool :=
  match n with
  | O => true
  | S n' => p from && all_from p n' (from + 1)
  end.

(** ** Pagination ([BaseModel.paginate]) *)

Module Pagination.

Inductive Order : Type := Asc | Desc.

(** [PaginationParams]; the numbers are integers. *)
Record Params : Type := mkParams {
  page : option Z;
  limit : option Z;
  orderBy : option string;
  order : option Order
}.

Record Result (T : Type) : Type := mkResult {
  data : list T;
  total : Z;
  current : Z;       (* [page] *)
  size : Z;          (* [limit] *)
  totalPages : Z;
  hasNextPage : bool;
  hasPreviousPage : bool
}.

Arguments mkResult {T}.
Arguments data {T}.
Arguments total {T}.
Arguments current {T}.
Arguments size {T}.
Arguments totalPages {T}.
Arguments hasNextPage {T}.
Arguments hasPreviousPage {T}.

(** [x || d] for an optional integer: [undefined] and 0 give [d]. *)
Definition or_else (x : option Z) (d : Z) : Z :=
  match x with
  | Some n => if n =? 0 then d else n
  | None => d
  end.

(** [Math.ceil(a / b)] *)
Definition ceil_div (a b : Z) : Z := Qceiling (inject_Z a / inject_Z b).

(** The query is the list of the rows it selects, in its order;
    [sort column direction] is its [orderBy]. *)
Definition paginate {T} (sort : string -> Order -> list T -> list T)
  (query : list T) (params : Params) : Result T :=
  let page := Z.max 1 (or_else (page params) 1) in
  let limit := Z.min 100 (Z.max 1 (or_else (limit params) 20)) in
  let offset := (page - 1) * limit in
  let total := Z.of_nat (length query) in
  let query :=
    match orderBy params with
    | Some column =>
        if bool_decide (column = "") then query
        else sort column (default Asc (order params)) query
    | None => query
    end in
  let data := take (Z.to_nat limit) (drop (Z.to_nat offset) query) in
  let totalPages := ceil_div total limit in
  {| data := data;
     total := total;
     current := page;
     size := limit;
     totalPages := totalPages;
     hasNextPage := page <? totalPages;
     hasPreviousPage := 1 <? page |}.

(** The query after the optional [orderBy]. *)
Definition ordered {T} (sort : string -> Order -> list T -> list T)
  (query : list T) (params : Params) : list T :=
  match orderBy params with
  | Some column =>
      if bool_decide (column = "") then query
      else sort column (default Asc (order params)) query
  | None => query
  end.

(** The same request for another page. *)
Definition at_page (params : Params) (p : Z) : Params :=
  {| page := Some p; limit := limit params; orderBy := orderBy params;
     order := order params |}.

(** A sort that reverses for [Desc]; it stands for an [orderBy] on rows
    stored in ascending order. *)
Definition flip {T} (column : string) (o : Order) (rows : list T) : list T :=
  match o with Asc => rows | Desc => reverse rows end.

End Pagination.

(** ** The other tables *)

Module Review.

Record t : Type := mk {
  id : string;
  created_at : Date;
  updated_at : Date;
  transaction_id : string;
  reviewer_id : string;
  reviewed_id : string;
  rating : Z;
  comment : option string;
  is_buyer_review : bool
}.

Inductive Star : Type := Filled | Hollow.

(** [String.prototype.repeat]: a negative count raises a RangeError. *)
Definition repeat_star (s : Star) (count : Z) : option (list Star) :=
  if count <? 0 then None else Some (replicate (Z.to_nat count) s).

(** [getRatingStars]; [None] is the RangeError. *)
Definition getRatingStars (this : t) : option (list Star) :=
  match repeat_star Filled (rating this) with
  | None => None
  | Some filled =>
      match repeat_star Hollow (5 - rating this) with
      | None => None
      | Some hollow => Some (filled ++ hollow)
      end
  end.

Definition isPositive (this : t) : bool := 4 <=? rating this.

Definition isNegative (this : t) : bool := rating this <=? 2.

(** The value [canReview] resolves to. *)
Record Verdict : Type := mkVerdict {
  canReview : bool;
  reason : option string
}.

(** The value [getStats] resolves to.  In [distribution] the value
    [None] is a NaN, what [++] makes of a missing key.  The average, a
    quotient of small integers rounded to tenths, is kept as an exact
    rational. *)
Record Stats : Type := mkStats {
  average : Qc;
  total : nat;
  distribution : gmap Z (option nat);
  positive : nat;
  negative : nat
}.

(** The object [{ 1: c1, 2: c2, 3: c3, 4: c4, 5: c5 }]. *)
Definition histogram (c1 c2 c3 c4 c5 : nat) : gmap Z (option nat) :=
  {[ 1 := Some c1; 2 := Some c2; 3 := Some c3; 4 := Some c4; 5 := Some c5 ]}.

End Review.

Module VehicleImage.

(** A row of [vehicle_images]; the table has no [updated_at] column. *)
Record t : Type := mk {
  id : string;
  created_at : Date;
  vehicle_id : string;
  url : string;
  thumbnail_url : option string;
  is_primary : bool;
  display_order : Z
}.

(** The columns the migration gives the table. *)
Definition columns : list string :=
  ["id"; "vehicle_id"; "url"; "thumbnail_url"; "is_primary";
   "display_order"; "created_at"].

(** [Partial<VehicleImage>], the argument of [patch]; a flag and an
    integer meet the schema by their types. *)
Record Patch : Type := mkPatch {
  set_is_primary : option bool;
  set_display_order : option Z;
  set_updated_at : option Date
}.

(** The columns an UPDATE with the patch names. *)
Definition written (p : Patch) : list string :=
  column "is_primary" (set_is_primary p)
  ++ column "display_order" (set_display_order p)
  ++ column "updated_at" (set_updated_at p).

Definition patch (p : Patch) (row : t) : t :=
  {| id := id row;
     created_at := created_at row;
     vehicle_id := vehicle_id row;
     url := url row;
     thumbnail_url := thumbnail_url row;
     is_primary := default (is_primary row) (set_is_primary p);
     display_order := default (display_order row) (set_display_order p) |}.

End VehicleImage.

Module Conversation.

(** A row of [conversations]. *)
Record t : Type := mk {
  id : string;
  created_at : Date;
  updated_at : Date;
  vehicle_id : string;
  buyer_id : string;
  seller_id : string;
  last_message_at : option Date;
  buyer_unread_count : Z;
  seller_unread_count : Z
}.

(** The [update] object of [markAsRead] and [incrementUnreadCount]. *)
Record Patch : Type := mkPatch {
  set_buyer_unread_count : option Z;
  set_seller_unread_count : option Z;
  set_last_message_at : option Date;
  set_updated_at : option Date
}.

(** [jsonSchema] on a patch: [last_message_at] is declared a string or
    null.  The table has every column of the patch. *)
Definition valid (p : Patch) : bool :=
  string_or_null (set_last_message_at p).

Definition patch (p : Patch) (row : t) : t :=
  {| id := id row;
     created_at := created_at row;
     updated_at := default (updated_at row) (set_updated_at p);
     vehicle_id := vehicle_id row;
     buyer_id := buyer_id row;
     seller_id := seller_id row;
     last_message_at :=
       from_option Some (last_message_at row) (set_last_message_at p);
     buyer_unread_count :=
       default (buyer_unread_count row) (set_buyer_unread_count p);
     seller_unread_count :=
       default (seller_unread_count row) (set_seller_unread_count p) |}.

Definition isBuyer (this : t) (userId : string) : bool :=
  bool_decide (buyer_id this = userId).

Definition isSeller (this : t) (userId : string) : bool :=
  bool_decide (seller_id this = userId).

Definition isParticipant (this : t) (userId : string) : bool :=
  isBuyer this userId || isSeller this userId.

Definition getUnreadCount (this : t) (userId : string) : Z :=
  if isBuyer this userId then buyer_unread_count this
  else if isSeller this userId then seller_unread_count this
  else 0.

End Conversation.

Module Message.

(** A row of [messages]; the table has no [updated_at] column. *)
Record t : Type := mk {
  id : string;
  created_at : Date;
  conversation_id : string;
  sender_id : string;
  content : string;
  is_read : bool;
  read_at : option Date
}.

Record Patch : Type := mkPatch {
  set_is_read : option bool;
  set_read_at : option Date;
  set_updated_at : option Date
}.

(** The columns the migration gives the table. *)
Definition columns : list string :=
  ["id"; "conversation_id"; "sender_id"; "content"; "is_read"; "read_at";
   "created_at"].

(** [jsonSchema] on a patch: [read_at] is declared a string or null. *)
Definition valid (p : Patch) : bool := string_or_null (set_read_at p).

(** The columns an UPDATE with the patch names. *)
Definition written (p : Patch) : list string :=
  column "is_read" (set_is_read p) ++ column "read_at" (set_read_at p)
  ++ column "updated_at" (set_updated_at p).

Definition patch (p : Patch) (row : t) : t :=
  {| id := id row;
     created_at := created_at row;
     conversation_id := conversation_id row;
     sender_id := sender_id row;
     content := content row;
     is_read := default (is_read row) (set_is_read p);
     read_at := from_option Some (read_at row) (set_read_at p) |}.

End Message.

Module Favorite.

(** A row of [favorites]; the table has no [updated_at] column. *)
Record t : Type := mk {
  id : string;
  created_at : Date;
  user_id : string;
  vehicle_id : string
}.

(** The columns the migration gives the table. *)
Definition columns : list string :=
  ["id"; "user_id"; "vehicle_id"; "created_at"].

(** The instance an [insert] sends, once [$beforeInsert] has run: the
    two ids given, and the id and the two timestamps of [BaseModel]. *)
Record Insert : Type := mkInsert {
  new_id : string;
  new_created_at : Date;
  new_updated_at : Date;
  new_user_id : string;
  new_vehicle_id : string
}.

(** The columns the INSERT names: the properties of the instance. *)
Definition written (o : Insert) : list string :=
  ["id"; "created_at"; "updated_at"; "user_id"; "vehicle_id"].

(** The row a table with those columns would store. *)
Definition row (o : Insert) : t :=
  {| id := new_id o;
     created_at := new_created_at o;
     user_id := new_user_id o;
     vehicle_id := new_vehicle_id o |}.

End Favorite.

(** The tables besides those of the [World], and the source of
    [uuidv4()].  The constraints of the database (keys, uniqueness) are
    hypotheses of the properties that need them. *)
Record Store : Type := mkStore {
  base : World;
  uuids : nat -> string;
  uuid_reads : nat;
  reviews : gmap string Review.t;
  images : gmap string VehicleImage.t;
  conversations : gmap string Conversation.t;
  messages : gmap string Message.t;
  favorites : gmap string Favorite.t
}.

(** The monad of the methods over the store that cannot throw. *)
Definition D (A : Type) : Type := Store -> A * Store.

#[global] Instance D_ret : MRet D := fun A a s => (a, s).

#[global] Instance D_bind : MBind D :=
  fun A B k m s => let '(a, s') := m s in k a s'.

Definition run {A} (m : D A) (s : Store) : Store := snd (m s).
Definition result {A} (m : D A) (s : Store) : A := fst (m s).

Definition with_base (w : World) (s : Store) : Store :=
  {| base := w; uuids := uuids s; uuid_reads := uuid_reads s;
     reviews := reviews s; images := images s;
     conversations := conversations s; messages := messages s;
     favorites := favorites s |}.

(** A method over the [World] run in the store. *)
Definition lift {A} (m : M A) : D A := fun s =>
  let '(a, w) := m (base s) in (a, with_base w s).

(** The same for one that may throw. *)
Definition within {A} (m : Try World A) : Try Store A := fun s =>
  let '(r, w) := m (base s) in (r, with_base w s).

Definition read {A} (f : Store -> A) : D A := fun s => (f s, s).

(** [uuidv4()] *)
Definition uuidv4 : D string := fun s =>
  (uuids s (uuid_reads s),
   {| base := base s; uuids := uuids s; uuid_reads := S (uuid_reads s);
      reviews := reviews s; images := images s;
      conversations := conversations s; messages := messages s;
      favorites := favorites s |}).

Definition update_images
  (f : gmap string VehicleImage.t -> gmap string VehicleImage.t) : D unit :=
  fun s =>
  (tt,
   {| base := base s; uuids := uuids s; uuid_reads := uuid_reads s;
      reviews := reviews s; images := f (images s);
      conversations := conversations s; messages := messages s;
      favorites := favorites s |}).

Definition update_conversations
  (f : gmap string Conversation.t -> gmap string Conversation.t) : D unit :=
  fun s =>
  (tt,
   {| base := base s; uuids := uuids s; uuid_reads := uuid_reads s;
      reviews := reviews s; images := images s;
      conversations := f (conversations s); messages := messages s;
      favorites := favorites s |}).

Definition update_messages
  (f : gmap string Message.t -> gmap string Message.t) : D unit :=
  fun s =>
  (tt,
   {| base := base s; uuids := uuids s; uuid_reads := uuid_reads s;
      reviews := reviews s; images := images s;
      conversations := conversations s; messages := f (messages s);
      favorites := favorites s |}).

Definition update_favorites
  (f : gmap string Favorite.t -> gmap string Favorite.t) : D unit :=
  fun s =>
  (tt,
   {| base := base s; uuids := uuids s; uuid_reads := uuid_reads s;
      reviews := reviews s; images := images s;
      conversations := conversations s; messages := messages s;
      favorites := f (favorites s) |}).

(** [this.transaction(async (trx) => ...)]: when the callback throws,
    what it wrote is rolled back; the clock and the uuid source have
    moved on. *)
Definition rollback (before now : Store) : Store :=
  {| base :=
       {| commission_settings := commission_settings (base before);
          transactions := transactions (base before);
          vehicles := vehicles (base before);
          commissions := commissions (base before);
          clock := clock (base now);
          clock_reads := clock_reads (base now);
          random := random (base now);
          random_reads := random_reads (base now) |};
     uuids := uuids now; uuid_reads := uuid_reads now;
     reviews := reviews before; images := images before;
     conversations := conversations before; messages := messages before;
     favorites := favorites before |}.

Definition transaction {A} (callback : Try Store A) : Try Store A := fun s =>
  match callback s with
  | (inl e, s') => (inl e, rollback s s')
  | (inr a, s') => (inr a, s')
  end.

(** [.first()] and [findOne]: a row that satisfies [p], if there is
    one. *)
Definition first_row {A} (p : A -> bool) (rows : gmap string A)
  : option A :=
  snd <$> head (map_to_list (where_rows p rows)).

(** ** Reviews *)

(** [Review.canReview] *)
Definition canReview (transactionId userId : string) : D Review.Verdict :=
  transaction ← read (fun s => transactions (base s) !! transactionId);
  match transaction with
  | None =>
      mret {| Review.canReview := false;
              Review.reason := Some "Transaction not found" |}
  | Some transaction =>
      if negb (bool_decide (Transaction.status transaction = COMPLETED))
      then mret {| Review.canReview := false;
                   Review.reason := Some "Transaction must be completed" |}
      else
        let isBuyer :=
          bool_decide (Transaction.buyer_id transaction = userId) in
        let isSeller :=
          bool_decide (Transaction.seller_id transaction = userId) in
        if negb isBuyer && negb isSeller
        then mret {| Review.canReview := false;
                     Review.reason :=
                       Some "User is not part of this transaction" |}
        else
          existingReview ←
            read (fun s =>
                    first_row
                      (fun r =>
                         bool_decide (Review.transaction_id r = transactionId)
                         && bool_decide (Review.reviewer_id r = userId))
                      (reviews s));
          match existingReview with
          | Some _ =>
              mret {| Review.canReview := false;
                      Review.reason := Some "Already reviewed" |}
          | None =>
              mret {| Review.canReview := true; Review.reason := None |}
          end
  end.

(** [Math.round] of a rational. *)
Definition Math_round (x : Q) : Z := Qfloor (x + (1 # 2)).

(** [distribution[rating]++] *)
Definition bump (d : gmap Z (option nat)) (rating : Z)
  : gmap Z (option nat) :=
  <[rating := match d !! rating with
              | Some (Some n) => Some (S n)
              | _ => None
              end]> d.

(** The statistics of a list of reviews, as [getStats] computes them
    from the rows it fetched. *)
Definition stats_of (rows : list Review.t) : Review.Stats :=
  let zero := Review.histogram 0 0 0 0 0 in
  if (length rows =? 0)%nat then
    {| Review.average := 0%Qc; Review.total := 0;
       Review.distribution := zero;
       Review.positive := 0; Review.negative := 0 |}
  else
    let total := length rows in
    let sum := foldl (fun acc review => acc + Review.rating review) 0 rows in
    let average := (inject_Z sum / inject_Z (Z.of_nat total))%Q in
    let '(distribution, positive, negative) :=
      foldl (fun '(d, p, n) review =>
               (bump d (Review.rating review),
                if 4 <=? Review.rating review then S p else p,
                if Review.rating review <=? 2 then S n else n))
        (zero, 0%nat, 0%nat) rows in
    {| Review.average := Q2Qc (inject_Z (Math_round (average * 10)) / 10);
       Review.total := total;
       Review.distribution := distribution;
       Review.positive := positive;
       Review.negative := negative |}.

(** How many of the rows are rated [k]. *)
Definition rated (k : Z) (rows : list Review.t) : nat :=
  length (filter (fun r => Review.rating r = k) rows).

(** The rows of [getStats]: the reviews received by the user. *)
Definition received (userId : string) (s : Store) : list Review.t :=
  snd <$> map_to_list
            (where_rows (fun r => bool_decide (Review.reviewed_id r = userId))
               (reviews s)).

(** [Review.getStats] *)
Definition getStats (userId : string) : D Review.Stats :=
  rows ← read (received userId);
  mret (stats_of rows).

(** ** Vehicle images *)

(** [BaseModel.$beforeUpdate] on the patch of a vehicle image. *)
Definition VehicleImage_beforeUpdate (p : VehicleImage.Patch)
  : D VehicleImage.Patch :=
  now ← lift new_Date;
  mret {| VehicleImage.set_is_primary := VehicleImage.set_is_primary p;
          VehicleImage.set_display_order := VehicleImage.set_display_order p;
          VehicleImage.set_updated_at := Some now |}.

(** [VehicleImage.query(trx).where(...).patch(p)]: after the hook,
    PostgreSQL refuses an UPDATE that names a column the table does not
    have. *)
Definition VehicleImage_patch (selected : string -> VehicleImage.t -> bool)
  (p : VehicleImage.Patch) : Try Store nat :=
  p ← resolve (VehicleImage_beforeUpdate p);
  if known VehicleImage.columns (VehicleImage.written p) then
    rows ← resolve (read images);
    resolve (update_images (patch_where selected (VehicleImage.patch p)));;
    mret (matched selected rows)
  else throw DBError.

(** [VehicleImage.findPrimary] *)
Definition findPrimary (vehicleId : string) : D (option VehicleImage.t) :=
  read (fun s =>
          first_row
            (fun i => bool_decide (VehicleImage.vehicle_id i = vehicleId)
                      && bool_decide (VehicleImage.is_primary i = true))
            (images s)).

(** [VehicleImage.setPrimary] *)
Definition setPrimary (vehicleId imageId : string) : Try Store unit :=
  transaction (
    (* Remove current primary *)
    VehicleImage_patch
      (fun _ i => bool_decide (VehicleImage.vehicle_id i = vehicleId)
                  && bool_decide (VehicleImage.is_primary i = true))
      {| VehicleImage.set_is_primary := Some false;
         VehicleImage.set_display_order := None;
         VehicleImage.set_updated_at := None |};;
    (* Set new primary *)
    VehicleImage_patch
      (fun k i => bool_decide (k = imageId)
                  && bool_decide (VehicleImage.vehicle_id i = vehicleId))
      {| VehicleImage.set_is_primary := Some true;
         VehicleImage.set_display_order := None;
         VehicleImage.set_updated_at := None |};;
    mret tt).

(** The loop of [VehicleImage.reorder], from index [i] on. *)
Fixpoint reorder_from (vehicleId : string) (i : Z) (imageIds : list string)
  : Try Store unit :=
  match imageIds with
  | [] => mret tt
  | imageId :: rest =>
      VehicleImage_patch
        (fun k row => bool_decide (k = imageId)
                      && bool_decide (VehicleImage.vehicle_id row = vehicleId))
        {| VehicleImage.set_is_primary := None;
           VehicleImage.set_display_order := Some i;
           VehicleImage.set_updated_at := None |};;
      reorder_from vehicleId (i + 1) rest
  end.

(** [VehicleImage.reorder] *)
Definition reorder (vehicleId : string) (imageIds : list string)
  : Try Store unit :=
  transaction (reorder_from vehicleId 0 imageIds).

(** ** Conversations and messages *)

Definition Conversation_beforeUpdate (p : Conversation.Patch)
  : D Conversation.Patch :=
  now ← lift new_Date;
  mret {| Conversation.set_buyer_unread_count :=
            Conversation.set_buyer_unread_count p;
          Conversation.set_seller_unread_count :=
            Conversation.set_seller_unread_count p;
          Conversation.set_last_message_at :=
            Conversation.set_last_message_at p;
          Conversation.set_updated_at := Some now |}.

(** [Conversation.query().where(...).patch(p)]: validation, the hook,
    and the UPDATE, of a table that has all the columns written. *)
Definition Conversation_patch (selected : string -> Conversation.t -> bool)
  (p : Conversation.Patch) : Try Store nat :=
  if Conversation.valid p then
    p ← resolve (Conversation_beforeUpdate p);
    rows ← resolve (read conversations);
    resolve (update_conversations
               (patch_where selected (Conversation.patch p)));;
    mret (matched selected rows)
  else throw ValidationError.

Definition Message_beforeUpdate (p : Message.Patch) : D Message.Patch :=
  now ← lift new_Date;
  mret {| Message.set_is_read := Message.set_is_read p;
          Message.set_read_at := Message.set_read_at p;
          Message.set_updated_at := Some now |}.

(** [Message.query().where(...).patch(p)]: a patch that does not meet
    the schema is refused before the hook runs and before anything is
    sent; one that does is refused by PostgreSQL when it names a column
    the table does not have. *)
Definition Message_patch (selected : string -> Message.t -> bool)
  (p : Message.Patch) : Try Store nat :=
  if Message.valid p then
    p ← resolve (Message_beforeUpdate p);
    if known Message.columns (Message.written p) then
      rows ← resolve (read messages);
      resolve (update_messages (patch_where selected (Message.patch p)));;
      mret (matched selected rows)
    else throw DBError
  else throw ValidationError.

(** The [where] clauses shared by [Conversation.markAsRead] and
    [Message.markConversationMessagesAsRead]: the unread messages of the
    conversation that the user did not send. *)
Definition unread_for (conversationId userId : string) (m : Message.t)
  : bool :=
  bool_decide (Message.conversation_id m = conversationId)
  && negb (bool_decide (Message.sender_id m = userId))
  && bool_decide (Message.is_read m = false).

(** [Message.markConversationMessagesAsRead]; it resolves to the number
    of rows patched. *)
Definition markConversationMessagesAsRead (conversationId userId : string)
  : Try Store nat :=
  read_at ← resolve (lift new_Date);
  Message_patch (fun _ m => unread_for conversationId userId m)
    {| Message.set_is_read := Some true;
       Message.set_read_at := Some read_at;
       Message.set_updated_at := None |}.

(** [Conversation.markAsRead] *)
Definition Conversation_markAsRead (this : Conversation.t) (userId : string)
  : Try Store unit :=
  let after (update : Conversation.Patch) : Try Store unit :=
    Conversation_patch (by_id (Conversation.id this)) update;;
    (* Mark all messages as read *)
    read_at ← resolve (lift new_Date);
    Message_patch (fun _ m => unread_for (Conversation.id this) userId m)
      {| Message.set_is_read := Some true;
         Message.set_read_at := Some read_at;
         Message.set_updated_at := None |};;
    mret tt in
  if Conversation.isBuyer this userId then
    after {| Conversation.set_buyer_unread_count := Some 0;
             Conversation.set_seller_unread_count := None;
             Conversation.set_last_message_at := None;
             Conversation.set_updated_at := None |}
  else if Conversation.isSeller this userId then
    after {| Conversation.set_buyer_unread_count := None;
             Conversation.set_seller_unread_count := Some 0;
             Conversation.set_last_message_at := None;
             Conversation.set_updated_at := None |}
  else mret tt.

(** The patch [markAsRead] sends for a participant, once stamped. *)
Definition cleared (this : Conversation.t) (userId : string) (now : Date)
  : Conversation.Patch :=
  {| Conversation.set_buyer_unread_count :=
       if Conversation.isBuyer this userId then Some 0 else None;
     Conversation.set_seller_unread_count :=
       if Conversation.isBuyer this userId then None else Some 0;
     Conversation.set_last_message_at := None;
     Conversation.set_updated_at := Some now |}.

(** [Conversation.incrementUnreadCount] *)
Definition incrementUnreadCount (this : Conversation.t) (senderId : string)
  : Try Store unit :=
  let buyer_unread_count :=
    if Conversation.isBuyer this senderId then None
    else if Conversation.isSeller this senderId
    then Some (Conversation.buyer_unread_count this + 1)
    else None in
  let seller_unread_count :=
    if Conversation.isBuyer this senderId
    then Some (Conversation.seller_unread_count this + 1)
    else None in
  last_message_at ← resolve (lift new_Date);
  Conversation_patch (by_id (Conversation.id this))
    {| Conversation.set_buyer_unread_count := buyer_unread_count;
       Conversation.set_seller_unread_count := seller_unread_count;
       Conversation.set_last_message_at := Some last_message_at;
       Conversation.set_updated_at := None |};;
  mret tt.

(** ** Favorites *)

(** [{ user_id: userId, vehicle_id: vehicleId }] as a [findOne] filter. *)
Definition same_favorite (userId vehicleId : string) (f : Favorite.t)
  : bool :=
  bool_decide (Favorite.user_id f = userId)
  && bool_decide (Favorite.vehicle_id f = vehicleId).

(** [Favorite.exists] *)
Definition Favorite_exists (userId vehicleId : string) : D bool :=
  favorite ← read (fun s =>
                     first_row (same_favorite userId vehicleId)
                       (favorites s));
  mret (match favorite with Some _ => true | None => false end).

(** The row after [favorites_count = favorites_count + howMuch] and the
    stamp of the hook. *)
Definition incremented (howMuch : Z) (updated_at : option Date)
  (row : Vehicle.t) : Vehicle.t :=
  Vehicle.patch
    {| Vehicle.set_status := None;
       Vehicle.set_sold_at := None;
       Vehicle.set_favorites_count :=
         Some (Vehicle.favorites_count row + howMuch);
       Vehicle.set_updated_at := updated_at |}
    row.

(** [Vehicle.query().where('id', vehicleId).increment('favorites_count',
    howMuch)], and [decrement] with a negative [howMuch]: a patch of the
    column by an SQL expression, stamped by the hook. *)
Definition increment_favorites_count (vehicleId : string) (howMuch : Z)
  : Try World nat :=
  p ← resolve (Vehicle_beforeUpdate
                 {| Vehicle.set_status := None;
                    Vehicle.set_sold_at := None;
                    Vehicle.set_favorites_count := None;
                    Vehicle.set_updated_at := None |});
  rows ← resolve (fun w => (vehicles w, w));
  resolve (update_vehicles
             (patch_where (by_id vehicleId)
                (incremented howMuch (Vehicle.set_updated_at p))));;
  mret (matched (by_id vehicleId) rows).

(** [BaseModel.$beforeInsert] on [{ user_id, vehicle_id }]. *)
Definition Favorite_beforeInsert (userId vehicleId : string)
  : D Favorite.Insert :=
  id ← uuidv4;
  now ← lift new_Date;
  mret {| Favorite.new_id := id;
          Favorite.new_created_at := now;
          Favorite.new_updated_at := now;
          Favorite.new_user_id := userId;
          Favorite.new_vehicle_id := vehicleId |}.

(** [Favorite.query().insert({ user_id, vehicle_id })]: two strings
    meet the schema; after the hook, PostgreSQL refuses an INSERT that
    names a column the table does not have. *)
Definition Favorite_insert (userId vehicleId : string) : Try Store unit :=
  o ← resolve (Favorite_beforeInsert userId vehicleId);
  if known Favorite.columns (Favorite.written o) then
    resolve (update_favorites (insert (Favorite.new_id o) (Favorite.row o)))
  else throw DBError.

(** [Favorite.toggle]; it resolves to [added]. *)
Definition toggle (userId vehicleId : string) : Try Store bool :=
  existing ← resolve (read (fun s =>
                              first_row (same_favorite userId vehicleId)
                                (favorites s)));
  match existing with
  | Some existing =>
      resolve (update_favorites (delete (Favorite.id existing)));;
      within (increment_favorites_count vehicleId (-1));;
      mret false
  | None =>
      Favorite_insert userId vehicleId;;
      within (increment_favorites_count vehicleId 1);;
      mret true
  end.

(** [Favorite.countByVehicle] *)
Definition countByVehicle (vehicleId : string) : D Z :=
  read (fun s =>
          Z.of_nat
            (count_rows
               (fun f => bool_decide (Favorite.vehicle_id f = vehicleId))
               (favorites s))).

(** [Vehicle.updateFavoriteCount] *)
Definition updateFavoriteCount (this : Vehicle.t) : Try Store unit :=
  count ← resolve (countByVehicle (Vehicle.id this));
  within (Vehicle_patch (by_id (Vehicle.id this))
            {| Vehicle.set_status := None;
               Vehicle.set_sold_at := None;
               Vehicle.set_favorites_count := Some count;
               Vehicle.set_updated_at := None |});;
  mret tt.

(** The [favorites_count] column of a vehicle; 0 for a vehicle that is
    not stored. *)
Definition favorites_count_of (vehicleId : string) (s : Store) : Z :=
  from_option Vehicle.favorites_count 0 (vehicles (base s) !! vehicleId).

(** The favorites table as the database keeps it: a row is stored under
    its id, and a user has at most one favorite per vehicle. *)
Definition favorites_table (rows : gmap string Favorite.t) : Prop :=
  (forall k f, rows !! k = Some f -> Favorite.id f = k)
  /\ (forall k1 k2 f1 f2,
        rows !! k1 = Some f1 -> rows !! k2 = Some f2 ->
        Favorite.user_id f1 = Favorite.user_id f2 ->
        Favorite.vehicle_id f1 = Favorite.vehicle_id f2 -> k1 = k2).

(** ** A sample store *)

Module Demo.

Definition review : Review.t :=
  {| Review.id := "rev-1";
     Review.created_at := Sample.day;
     Review.updated_at := Sample.day;
     Review.transaction_id := "tx-0";
     Review.reviewer_id := "usr-buyer";
     Review.reviewed_id := "usr-seller";
     Review.rating := 4;
     Review.comment := None;
     Review.is_buyer_review := true |}.

Definition image (k vehicle : string) (primary : bool) (order : Z)
  : VehicleImage.t :=
  {| VehicleImage.id := k;
     VehicleImage.created_at := Sample.day;
     VehicleImage.vehicle_id := vehicle;
     VehicleImage.url := "https://img.example/" +:+ k;
     VehicleImage.thumbnail_url := None;
     VehicleImage.is_primary := primary;
     VehicleImage.display_order := order |}.

Definition chat : Conversation.t :=
  {| Conversation.id := "conv-1";
     Conversation.created_at := Sample.day;
     Conversation.updated_at := Sample.day;
     Conversation.vehicle_id := "veh-1";
     Conversation.buyer_id := "usr-buyer";
     Conversation.seller_id := "usr-seller";
     Conversation.last_message_at := None;
     Conversation.buyer_unread_count := 2;
     Conversation.seller_unread_count := 1 |}.

Definition note (k sender : string) (read : bool) : Message.t :=
  {| Message.id := k;
     Message.created_at := Sample.day;
     Message.conversation_id := "conv-1";
     Message.sender_id := sender;
     Message.content := "hola";
     Message.is_read := read;
     Message.read_at := if read then Some Sample.day else None |}.

Definition favorite : Favorite.t :=
  {| Favorite.id := "fav-1";
     Favorite.created_at := Sample.day;
     Favorite.user_id := "usr-buyer";
     Favorite.vehicle_id := "veh-1" |}.

(** The dealer's world with one review of an earlier sale, three images
    (two of the listing), one conversation with three messages and one
    favorite; the n-th uuid is the n-th capital letter followed by
    [-uuid]. *)
Definition store : Store :=
  {| base := Sample.dealer_world;
     uuids := fun n => String (ascii_of_nat (65 + n)) "-uuid";
     uuid_reads := 0;
     reviews := {[ "rev-1" := review ]};
     images :=
       {[ "img-a" := image "img-a" "veh-1" true 0;
          "img-b" := image "img-b" "veh-1" false 1;
          "img-c" := image "img-c" "veh-2" true 0 ]};
     conversations := {[ "conv-1" := chat ]};
     messages :=
       {[ "msg-1" := note "msg-1" "usr-seller" true;
          "msg-2" := note "msg-2" "usr-seller" false;
          "msg-3" := note "msg-3" "usr-buyer" false ]};
     favorites := {[ "fav-1" := favorite ]} |}.

End Demo.

(** ** The default commission rules *)

Module Draft.

(** An element of the [defaults] array of [createDefault]: the
    properties an [insert] is given. *)
Record t : Type := mk {
  name : string;
  description : option string;
  type : CommissionType;
  value : Qc;
  min_price : option Qc;
  max_price : option Qc;
  user_role : option UserRole;
  priority : Z
}.

End Draft.

Definition defaults : list Draft.t :=
  [ {| Draft.name := "Comisión estándar";
       Draft.description := Some "Comisión por defecto para todas las ventas";
       Draft.type := PERCENTAGE;
       Draft.value := JS.Qc_of_Z 5;
       Draft.min_price := None;
       Draft.max_price := None;
       Draft.user_role := None;
       Draft.priority := 0 |};
    {| Draft.name := "Comisión premium";
       Draft.description := Some "Comisión reducida para dealers premium";
       Draft.type := PERCENTAGE;
       Draft.value := JS.Qc_of_Z 3;
       Draft.min_price := None;
       Draft.max_price := None;
       Draft.user_role := Some DEALER;
       Draft.priority := 10 |};
    {| Draft.name := "Comisión vehículos económicos";
       Draft.description :=
         Some "Comisión fija para vehículos de bajo precio";
       Draft.type := FIXED;
       Draft.value := JS.Qc_of_Z 500;
       Draft.min_price := None;
       Draft.max_price := Some (JS.Qc_of_Z 10000);
       Draft.user_role := None;
       Draft.priority := 5 |};
    {| Draft.name := "Comisión vehículos de lujo";
       Draft.description :=
         Some "Comisión especial para vehículos de alto valor";
       Draft.type := PERCENTAGE;
       Draft.value := JS.Qc_of_Z 2;
       Draft.min_price := Some (JS.Qc_of_Z 50000);
       Draft.max_price := None;
       Draft.user_role := None;
       Draft.priority := 15 |} ].

Definition update_commission_settings
  (f : list CommissionSetting.t -> list CommissionSetting.t) : M unit :=
  fun w =>
  (tt,
   {| commission_settings := f (commission_settings w);
      transactions := transactions w;
      vehicles := vehicles w;
      commissions := commissions w;
      clock := clock w;
      clock_reads := clock_reads w;
      random := random w;
      random_reads := random_reads w |}).

(** The row an [insert] of the draft stores: [$beforeInsert] gives it a
    uuid and the time, the schema's default makes it active. *)
Definition stored_as (id : string) (now : Date) (setting : Draft.t)
  : CommissionSetting.t :=
  {| CommissionSetting.id := id;
     CommissionSetting.created_at := now;
     CommissionSetting.name := Draft.name setting;
     CommissionSetting.description := Draft.description setting;
     CommissionSetting.type := Draft.type setting;
     CommissionSetting.value := Draft.value setting;
     CommissionSetting.min_price := Draft.min_price setting;
     CommissionSetting.max_price := Draft.max_price setting;
     CommissionSetting.user_role := Draft.user_role setting;
     CommissionSetting.is_active := true;
     CommissionSetting.priority := Draft.priority setting |}.

(** [CommissionSetting.query().insert(setting)] *)
Definition insert_setting (setting : Draft.t) : D unit :=
  id ← uuidv4;
  now ← lift new_Date;
  lift (update_commission_settings
          (fun rows => rows ++ [stored_as id now setting])).

(** Whether a rule of that name is stored: the [.first()] of
    [where('name', name)] is defined. *)
Definition named (name : string) (rows : list CommissionSetting.t) : bool :=
  match filter (fun r => CommissionSetting.name r = name) rows with
  | [] => false
  | _ :: _ => true
  end.

(** The [for ... of] loop of [createDefault]. *)
Fixpoint createDefault_loop (settings : list Draft.t) : D unit :=
  match settings with
  | [] => mret tt
  | setting :: rest =>
      exists_ ← read (fun s =>
                        named (Draft.name setting)
                          (commission_settings (base s)));
      (if negb exists_ then insert_setting setting else mret tt);;
      createDefault_loop rest
  end.

(** [CommissionSetting.createDefault] *)
Definition createDefault : D unit := createDefault_loop defaults.

(** * Properties *)

(** ** The ordered scan *)

Section Ordering.

Import CommissionSetting.

Lemma before_iff (a b : t) :
  before a b = true
  <-> priority b < priority a
      \/ (priority a = priority b
          /\ getTime (created_at a) <= getTime (created_at b)).
Proof.
  unfold before.
  rewrite orb_true_iff, andb_true_iff, Z.ltb_lt, Z.eqb_eq, Z.leb_le.
  reflexivity.
Qed.

Lemma before_total (a b : t) : before a b = false -> before b a = true.
Proof. rewrite <- not_true_iff_false, !before_iff. lia. Qed.

Lemma before_trans (a b c : t) :
  before a b = true -> before b c = true -> before a c = true.
Proof. rewrite !before_iff. lia. Qed.

Lemma before_tied (a b : t) :
  before a b = true -> before b a = true -> tied a b.
Proof. rewrite !before_iff. unfold tied. lia. Qed.

Lemma elem_of_place (x y : t) (rows : list t) :
  y ∈ place x rows <-> y = x \/ y ∈ rows.
Proof.
  induction rows as [|z rows IH]; simpl.
  - rewrite list_elem_of_singleton, elem_of_nil. tauto.
  - destruct (before x z).
    + now rewrite elem_of_cons.
    + rewrite !elem_of_cons, IH. tauto.
Qed.

Lemma elem_of_orderBy (y : t) (rows : list t) : y ∈ orderBy rows <-> y ∈ rows.
Proof.
  unfold orderBy. induction rows as [|x rows IH]; simpl; [reflexivity|].
  now rewrite elem_of_place, elem_of_cons, IH.
Qed.

Lemma place_ordered (x : t) (rows : list t) :
  ordered rows -> ordered (place x rows).
Proof.
  unfold ordered. induction 1 as [|z rows Hs IH Hz]; simpl.
  - repeat constructor.
  - destruct (before x z) eqn:E.
    + constructor; [now constructor|].
      constructor; [exact E|].
      eapply Forall_impl; [exact Hz|].
      intros c Hc. simpl in Hc. eapply before_trans; eassumption.
    + constructor; [exact IH|].
      apply Forall_forall. intros c Hc.
      apply elem_of_place in Hc as [->|Hc].
      * now apply before_total.
      * rewrite Forall_forall in Hz. now apply Hz.
Qed.

Lemma orderBy_ordered (rows : list t) : ordered (orderBy rows).
Proof.
  unfold orderBy. induction rows; simpl; [constructor | now apply place_ordered].
Qed.

Lemma place_Permutation (x : t) (rows : list t) : place x rows ≡ₚ x :: rows.
Proof.
  induction rows as [|z rows IH]; simpl; [reflexivity|].
  destruct (before x z); [reflexivity|].
  rewrite IH. apply Permutation_swap.
Qed.

Lemma orderBy_Permutation (rows : list t) : orderBy rows ≡ₚ rows.
Proof.
  unfold orderBy. induction rows as [|x rows IH]; simpl; [reflexivity|].
  now rewrite place_Permutation, IH.
Qed.

(** Two orderings of the same rows agree when no two of the rows are
    tied. *)
Lemma ordered_unique (l1 l2 : list t) :
  ordered l1 -> ordered l2 -> l1 ≡ₚ l2 ->
  (forall a b, a ∈ l1 -> b ∈ l1 -> tied a b -> a = b) ->
  l1 = l2.
Proof.
  unfold ordered. intros H1. revert l2.
  induction H1 as [|x l1 Hs1 IH Hx]; intros l2 H2 Hperm Hties.
  - now apply Permutation_nil_l in Hperm.
  - destruct H2 as [|y l2 Hs2 Hy].
    + now apply Permutation_nil_r in Hperm.
    + assert (Hxy : x = y).
      { assert (Hx2 : x ∈ y :: l2)
          by (rewrite <- Hperm; apply elem_of_cons; now left).
        apply elem_of_cons in Hx2 as [->|Hin]; [reflexivity|].
        assert (Hyx : before y x = true)
          by (rewrite Forall_forall in Hy; now apply Hy).
        assert (Hy1 : y ∈ x :: l1)
          by (rewrite Hperm; apply elem_of_cons; now left).
        apply elem_of_cons in Hy1 as [->|Hy1]; [reflexivity|].
        assert (Hxy : before x y = true)
          by (rewrite Forall_forall in Hx; now apply Hx).
        apply Hties.
        - apply elem_of_cons. now left.
        - apply elem_of_cons. now right.
        - now apply before_tied. }
      subst y. f_equal. apply IH; [exact Hs2| |].
      * now apply Permutation_cons_inv in Hperm.
      * intros a b Ha Hb. apply Hties; apply elem_of_cons; now right.
Qed.

End Ordering.

(** [findApplicable] reads the table and leaves the world as it was. *)
Lemma findApplicable_run (p : JS.value) (role : option UserRole) (w : World) :
  findApplicable p role w =
  (CommissionSetting.scan p role
     (CommissionSetting.orderBy
        (filter (fun s => CommissionSetting.is_active s = true)
           (commission_settings w))), w).
Proof. reflexivity. Qed.

Lemma calculateCommission_run (tx : Transaction.t) (w : World) :
  calculateCommission tx w =
  (match eval (findApplicable (Transaction.price_of tx)
                 (Resolver.sellerRole tx)) w with
   | None => Resolver.fallback (Transaction.price_of tx)
   | Some s =>
       {| Commission.calc_amount :=
            CommissionSetting.calculateAmount s (Transaction.price_of tx);
          Commission.calc_percentage :=
            match CommissionSetting.type s with
            | PERCENTAGE => CommissionSetting.value_of s
            | FIXED =>
                (CommissionSetting.calculateAmount s (Transaction.price_of tx)
                 / Transaction.price_of tx * JS.Num 100%float)%js
            end;
          Commission.settingId := Some (CommissionSetting.id s) |}
   end, w).
Proof.
  unfold calculateCommission, eval, Resolver.sellerRole.
  unfold mbind, M_bind. rewrite findApplicable_run. simpl.
  destruct (CommissionSetting.scan _ _ _) as [s|]; [|reflexivity].
  unfold mret, M_ret, CommissionSetting.calculateAmount.
  now destruct (CommissionSetting.type s).
Qed.

(** ** The resolver on fetched rows *)

(** C1.  A fetched row carries its price and its bounds as strings.
    For the buyer's sale at 9000.00 against the default rules the test
    "9000.00" < "50000.00" of the rule "vehiculos de lujo" is made
    character by character and fails, so that this rule, the first in
    order, is returned although 9000 is below its minimum of 50000.
    The fee is 2 % of 9000 = 180; the first rule whose bounds and role
    hold is "vehiculos economicos", with the fixed fee of 500. *)
Theorem resolver_compares_prices_as_text :
  let price := Transaction.price_of Sample.modest_sale in
  let role := Resolver.sellerRole Sample.modest_sale in
  JS.text 2 (Transaction.price Sample.modest_sale) = "9000.00"
  /\ CommissionSetting.min_price_of Sample.luxury
     = Some (JS.Numeric 2 (JS.Qc_of_Z 50000))
  /\ JS.text 2 (JS.Qc_of_Z 50000) = "50000.00"
  /\ (price < JS.Numeric 2 (JS.Qc_of_Z 50000))%js = false
  /\ eval findActive Sample.modest_world
     = [Sample.luxury; Sample.premium; Sample.economy; Sample.standard]
  /\ eval (findApplicable price role) Sample.modest_world
     = Some Sample.luxury
  /\ ~ Resolver.within_bounds Sample.luxury
         (Transaction.price Sample.modest_sale)
  /\ ~ Resolver.role_holds Sample.premium role
  /\ Resolver.within_bounds Sample.economy
       (Transaction.price Sample.modest_sale)
  /\ Resolver.role_holds Sample.economy role
  /\ eval (calculateCommission Sample.modest_sale) Sample.modest_world
     = {| Commission.calc_amount := JS.Num 180%float;
          Commission.calc_percentage := CommissionSetting.value_of Sample.luxury;
          Commission.settingId := Some "cs-luxury" |}.
Proof.
  cbv zeta.
  split; [reflexivity|]. split; [reflexivity|]. split; [reflexivity|].
  split; [reflexivity|]. split; [reflexivity|]. split; [reflexivity|].
  split.
  { intros [Hmin _]. specialize (Hmin _ eq_refl). now apply Hmin. }
  split.
  { intros [H|(r & Hr & Hrole)]; [discriminate|].
    injection Hr as <-. discriminate. }
  split.
  { split; intros m [= <-]. discriminate. }
  split; [now left|].
  reflexivity.
Qed.

(** ** Transaction lifecycle *)

Lemma complete_run (this : Transaction.t) (ref : string) (w : World) :
  complete this ref w = (inl ValidationError, tick w).
Proof. reflexivity. Qed.

Lemma cancel_run (this : Transaction.t) (reason : string) (w : World) :
  cancel this reason w = (inl ValidationError, tick w).
Proof. reflexivity. Qed.

Lemma canBeCompleted_iff (this : Transaction.t) :
  Transaction.canBeCompleted this = true
  <-> Transaction.status this = PROCESSING.
Proof. unfold Transaction.canBeCompleted. apply bool_decide_eq_true. Qed.

Lemma canBeCancelled_iff (this : Transaction.t) :
  Transaction.canBeCancelled this = true
  <-> Transaction.status this = PENDING
      \/ Transaction.status this = PROCESSING.
Proof.
  unfold Transaction.canBeCancelled. rewrite bool_decide_eq_true.
  rewrite !elem_of_cons, elem_of_nil. tauto.
Qed.

(** C2.  [complete] gives [completed_at] a [Date], which the schema of
    the model declares a string or null: whatever the status, the patch
    fails objection's validation, the call ends in a ValidationError
    (there is no InvalidState error) and neither the transaction nor
    the vehicle is written.  So it is for the sample sale in processing,
    of which [canBeCompleted] holds: it stays in processing and its
    vehicle reserved. *)
Theorem complete_throws (w : World) (this : Transaction.t)
  (paymentReference : string) :
  outcome (complete this paymentReference) w = inl ValidationError
  /\ transactions (after (complete this paymentReference) w) = transactions w
  /\ vehicles (after (complete this paymentReference) w) = vehicles w
  /\ commissions (after (complete this paymentReference) w) = commissions w
  /\ (Transaction.canBeCompleted this = true
      <-> Transaction.status this = PROCESSING)
  /\ Transaction.canBeCompleted Sample.paid_sale = true
  /\ transactions Sample.paid_world !! Transaction.id Sample.paid_sale
     = Some Sample.paid_sale
  /\ transactions (after (complete Sample.paid_sale "ref-1") Sample.paid_world)
       !! Transaction.id Sample.paid_sale
     = Some Sample.paid_sale
  /\ vehicles (after (complete Sample.paid_sale "ref-1") Sample.paid_world)
       !! Transaction.vehicle_id Sample.paid_sale
     = Some (Sample.listing RESERVED).
Proof.
  unfold outcome, after. rewrite !complete_run.
  split; [reflexivity|]. split; [reflexivity|]. split; [reflexivity|].
  split; [reflexivity|]. split; [apply canBeCompleted_iff|].
  repeat split; reflexivity.
Qed.

(** C3.  [cancel] gives [cancelled_at] a [Date], which the schema
    declares a string or null: the patch fails validation, the call
    ends in a ValidationError before any statement is sent, and the
    transaction and the vehicle stay as they were.  So it is for the
    sample sale, pending and with its vehicle reserved, of which
    [canBeCancelled] holds. *)
Theorem cancel_throws (w : World) (this : Transaction.t) (reason : string) :
  outcome (cancel this reason) w = inl ValidationError
  /\ transactions (after (cancel this reason) w) = transactions w
  /\ vehicles (after (cancel this reason) w) = vehicles w
  /\ (Transaction.canBeCancelled this = true
      <-> Transaction.status this = PENDING
          \/ Transaction.status this = PROCESSING)
  /\ Transaction.canBeCancelled Sample.dealer_sale = true
  /\ transactions Sample.dealer_world !! Transaction.id Sample.dealer_sale
     = Some Sample.dealer_sale
  /\ transactions (after (cancel Sample.dealer_sale "changed my mind")
                     Sample.dealer_world)
       !! Transaction.id Sample.dealer_sale
     = Some Sample.dealer_sale
  /\ Transaction.status Sample.dealer_sale = PENDING
  /\ vehicles (after (cancel Sample.dealer_sale "changed my mind")
                 Sample.dealer_world)
       !! Transaction.vehicle_id Sample.dealer_sale
     = Some (Sample.listing RESERVED).
Proof.
  unfold outcome, after. rewrite !cancel_run.
  split; [reflexivity|]. split; [reflexivity|]. split; [reflexivity|].
  split; [apply canBeCancelled_iff|].
  repeat split; reflexivity.
Qed.

(** ** Commission payment *)

Lemma payBatch_run (ids : list string) (ref : string) (w : World) :
  payBatch ids ref w = (inl ValidationError, tick w).
Proof. reflexivity. Qed.

Lemma markAsPaid_run (this : Commission.t) (ref : string) (w : World) :
  markAsPaid this ref w = (inl ValidationError, tick w).
Proof. reflexivity. Qed.

(** C10.  [payBatch] gives [paid_at] a [Date], which the schema
    declares a string or null: whatever the ids, the patch fails
    validation, the call ends in a ValidationError and returns no
    count, and no commission is written.  In the sample world the
    unpaid commissions "com-2" and "com-3", though listed, stay
    unpaid. *)
Theorem payBatch_throws (w : World) (commissionIds : list string)
  (paymentReference : string) :
  outcome (payBatch commissionIds paymentReference) w = inl ValidationError
  /\ commissions (after (payBatch commissionIds paymentReference) w)
     = commissions w
  /\ transactions (after (payBatch commissionIds paymentReference) w)
     = transactions w
  /\ commissions Sample.dealer_world !! "com-2"
     = Some (Sample.fee "com-2" false)
  /\ Commission.is_paid
       <$> commissions
             (after (payBatch ["com-2"; "com-3"] "pay-77") Sample.dealer_world)
             !! "com-2"
     = Some false.
Proof.
  unfold outcome, after. rewrite !payBatch_run.
  repeat split; reflexivity.
Qed.

(** ** Fee amounts *)

(** C4.  For the rule that wins, the amount is what [calculateAmount]
    of that rule gives.  For a percentage rule it is the product
    price * (value / 100) as the doubles compute it, each operation
    rounded to the nearest double and nothing rounded to cents; for a
    fixed rule it is the value of the rule as fetched, whatever the
    price. *)
Theorem fee_amount_of_winning_rule (w : World) (tx : Transaction.t)
  (s : CommissionSetting.t) :
  eval (findApplicable (Transaction.price_of tx) (Resolver.sellerRole tx)) w
  = Some s ->
  let calculation := eval (calculateCommission tx) w in
  Commission.calc_amount calculation
  = CommissionSetting.calculateAmount s (Transaction.price_of tx)
  /\ (CommissionSetting.type s = PERCENTAGE ->
      Commission.calc_amount calculation
      = JS.Num (JS.toNumber (Transaction.price_of tx)
                * (JS.toNumber (CommissionSetting.value_of s) / 100))%float)
  /\ (CommissionSetting.type s = FIXED ->
      Commission.calc_amount calculation
      = JS.Numeric 4 (CommissionSetting.value s))
  /\ Commission.settingId calculation = Some (CommissionSetting.id s).
Proof.
  intros Hwin. cbv zeta.
  pose proof (calculateCommission_run tx w) as Hrun.
  unfold eval in *. rewrite Hrun. cbn [fst]. rewrite Hwin. cbn [Commission.calc_amount Commission.settingId].
  unfold CommissionSetting.calculateAmount.
  repeat split; intros ->; reflexivity.
Qed.

Lemma fee_amount_of_winning_rule_witness :
  eval (findApplicable (Transaction.price_of Sample.dealer_sale)
          (Resolver.sellerRole Sample.dealer_sale)) Sample.dealer_world
  = Some Sample.premium
  /\ Commission.calc_amount
       (eval (calculateCommission Sample.dealer_sale) Sample.dealer_world)
     = JS.Num 600%float.
Proof.
  split; [reflexivity|].
  destruct (fee_amount_of_winning_rule Sample.dealer_world Sample.dealer_sale
              Sample.premium eq_refl) as (_ & Hp & _).
  rewrite (Hp eq_refl). reflexivity.
Defined.

(** A dealer's sale at 19999.99 is charged 3 %: exactly 599.9997.  The
    amount computed is the double 599.9997000000001, the one above the
    double nearest to 599.9997. *)
Lemma fee_amount_inexact_counterexample :
  let calculation :=
    eval (calculateCommission Sample.odd_sale) Sample.odd_world in
  eval (findApplicable (Transaction.price_of Sample.odd_sale)
          (Resolver.sellerRole Sample.odd_sale)) Sample.odd_world
  = Some Sample.premium
  /\ CommissionSetting.type Sample.premium = PERCENTAGE
  /\ Resolver.exact_fee Sample.odd_sale Sample.premium = Q2Qc (5999997 # 10000)
  /\ JS.toNumber (JS.Numeric 4 (Resolver.exact_fee Sample.odd_sale Sample.premium))
     = 0x1.2bfff62b6ae7dp+9%float
  /\ Commission.calc_amount calculation = JS.Num 0x1.2bfff62b6ae7ep+9%float
  /\ next_up 0x1.2bfff62b6ae7dp+9 = 0x1.2bfff62b6ae7ep+9%float
  /\ (JS.toNumber (Commission.calc_amount calculation)
      =? JS.toNumber (JS.Numeric 4 (Resolver.exact_fee Sample.odd_sale Sample.premium)))
       %float = false.
Proof.
  cbv zeta. split; [reflexivity|]. split; [reflexivity|].
  split. { apply Qc_is_canon. reflexivity. }
  repeat split; vm_compute; reflexivity.
Qed.

(** ** The percentage of a fixed fee *)

(** C5.  At price 0 the default rules select the fixed rule "vehiculos
    economicos" (500 up to 10000); the back-computed percentage is
    (500 / 0) * 100, which is not a finite number. *)
Theorem fixed_percentage_at_zero_price :
  eval (findApplicable (Transaction.price_of Sample.free_sale)
          (Resolver.sellerRole Sample.free_sale)) Sample.free_world
  = Some Sample.economy
  /\ CommissionSetting.type Sample.economy = FIXED
  /\ Commission.calc_percentage
       (eval (calculateCommission Sample.free_sale) Sample.free_world)
     = JS.Num infinity
  /\ JS.isFinite
       (Commission.calc_percentage
          (eval (calculateCommission Sample.free_sale) Sample.free_world))
     = false.
Proof. repeat split; reflexivity. Qed.

(** ** Determinism of the resolution *)

(** The rules that the query of [findActive] selects. *)
Lemma findActive_run (w : World) :
  findActive w
  = (CommissionSetting.orderBy
       (filter (fun s => CommissionSetting.is_active s = true)
          (commission_settings w)), w).
Proof. reflexivity. Qed.

(** With no two active rules tied, the rules come in one order however
    the database delivers the table. *)
Lemma findActive_order (w w' : World) :
  commission_settings w ≡ₚ commission_settings w' ->
  (forall a b,
     a ∈ commission_settings w -> b ∈ commission_settings w ->
     CommissionSetting.is_active a = true ->
     CommissionSetting.is_active b = true ->
     CommissionSetting.tied a b -> a = b) ->
  eval findActive w = eval findActive w'.
Proof.
  intros Hperm Hties. unfold eval. rewrite !findActive_run. cbn [fst].
  apply ordered_unique.
  - apply orderBy_ordered.
  - apply orderBy_ordered.
  - rewrite !orderBy_Permutation. now rewrite Hperm.
  - intros a b Ha Hb.
    apply elem_of_orderBy, list_elem_of_filter in Ha as [Ha Hina].
    apply elem_of_orderBy, list_elem_of_filter in Hb as [Hb Hinb].
    now apply Hties.
Qed.

(** C6.  A resolution reads the rules and writes nothing, and in a
    world where the rule table is delivered in the same order it gives
    the same rule and the same breakdown.  However the database
    delivers the table, it gives the same rule and the same breakdown
    provided no two active rules have both the same priority and the
    same creation time. *)
Theorem resolution_deterministic (w w' : World) (tx : Transaction.t) :
  commission_settings w ≡ₚ commission_settings w' ->
  (forall a b,
     a ∈ commission_settings w -> b ∈ commission_settings w ->
     CommissionSetting.is_active a = true ->
     CommissionSetting.is_active b = true ->
     CommissionSetting.tied a b -> a = b) ->
  let price := Transaction.price_of tx in
  let role := Resolver.sellerRole tx in
  exec (findApplicable price role) w = w
  /\ exec (calculateCommission tx) w = w
  /\ eval (findApplicable price role) w = eval (findApplicable price role) w'
  /\ eval (calculateCommission tx) w = eval (calculateCommission tx) w'.
Proof.
  intros Hperm Hties. cbv zeta.
  pose proof (findActive_order w w' Hperm Hties) as Horder.
  assert (Hsame :
    eval (findApplicable (Transaction.price_of tx) (Resolver.sellerRole tx)) w
    = eval (findApplicable (Transaction.price_of tx) (Resolver.sellerRole tx))
        w').
  { unfold eval in *. rewrite !findApplicable_run.
    rewrite !findActive_run in Horder. cbn [fst] in *. now rewrite Horder. }
  split; [reflexivity|].
  split. { unfold exec. now rewrite calculateCommission_run. }
  split; [exact Hsame|].
  unfold eval at 1 2. rewrite !calculateCommission_run. cbn [fst].
  now rewrite Hsame.
Qed.

Lemma resolution_deterministic_witness :
  commission_settings Sample.dealer_world
  ≡ₚ commission_settings Sample.shuffled_world
  /\ commission_settings Sample.dealer_world
     <> commission_settings Sample.shuffled_world
  /\ eval (calculateCommission Sample.dealer_sale) Sample.dealer_world
     = eval (calculateCommission Sample.dealer_sale) Sample.shuffled_world.
Proof.
  assert (Hperm : commission_settings Sample.dealer_world
                  ≡ₚ commission_settings Sample.shuffled_world).
  { change ([Sample.standard; Sample.premium] ++ [Sample.economy; Sample.luxury]
            ≡ₚ [Sample.luxury; Sample.economy; Sample.standard;
                Sample.premium]).
    etrans; [apply Permutation_app_comm|]. apply Permutation_swap. }
  split; [exact Hperm|]. split; [discriminate|].
  refine (proj2 (proj2 (proj2
    (resolution_deterministic Sample.dealer_world Sample.shuffled_world
       Sample.dealer_sale Hperm _)))).
  intros a b Ha Hb _ _ [Hprio _]. cbn in Ha, Hb. unfold Sample.defaults in *.
  rewrite !elem_of_cons, elem_of_nil in Ha, Hb.
  destruct Ha as [->|[->|[->|[->|[]]]]];
    destruct Hb as [->|[->|[->|[->|[]]]]];
    first [reflexivity | discriminate Hprio].
Defined.

(** Two active rules with the same priority and the same creation time,
    5 % and 7 %: the same table delivered in its two orders gives two
    rules, and two fees, for the same sale. *)
Lemma resolution_tied_counterexample :
  commission_settings Sample.tied_world
  ≡ₚ commission_settings Sample.tied_world'
  /\ transactions Sample.tied_world = transactions Sample.tied_world'
  /\ CommissionSetting.tied Sample.five Sample.seven
  /\ eval (findApplicable (Transaction.price_of Sample.dealer_sale)
             (Resolver.sellerRole Sample.dealer_sale)) Sample.tied_world
     = Some Sample.five
  /\ eval (findApplicable (Transaction.price_of Sample.dealer_sale)
             (Resolver.sellerRole Sample.dealer_sale)) Sample.tied_world'
     = Some Sample.seven
  /\ Commission.calc_amount
       (eval (calculateCommission Sample.dealer_sale) Sample.tied_world)
     = JS.Num 1000%float
  /\ Commission.calc_amount
       (eval (calculateCommission Sample.dealer_sale) Sample.tied_world')
     <> JS.Num 1000%float.
Proof.
  split. { apply Permutation_swap. }
  split; [reflexivity|]. split; [split; reflexivity|].
  split; [reflexivity|]. split; [reflexivity|]. split; [reflexivity|].
  intros H.
  assert (E : (JS.toNumber
                 (Commission.calc_amount
                    (eval (calculateCommission Sample.dealer_sale)
                       Sample.tied_world')) =? 1000)%float = true)
    by (rewrite H; reflexivity).
  vm_compute in E. discriminate E.
Qed.

(** ** Price bounds *)

Lemma float_ltb_irrefl (x : float) : (x <? x)%float = false.
Proof.
  rewrite ltb_spec. unfold SpecFloat.SFltb, SpecFloat.SFcompare.
  destruct (Prim2SF x) as [[|]|[|]| |[|] m e]; try reflexivity;
    rewrite Z.compare_refl, Pos.compare_cont_refl; reflexivity.
Qed.

Lemma string_ltb_irrefl (s : string) : String.ltb s s = false.
Proof.
  unfold String.ltb. pose proof (String.compare_antisym s s) as H.
  destruct (String.compare s s); try reflexivity. discriminate H.
Qed.

(** No value is below itself, and a number is not below the string it
    was converted from. *)
Lemma lt_irrefl (v : JS.value) :
  (v < v)%js = false /\ (JS.Num (JS.toNumber v) < v)%js = false
  /\ (v < JS.Num (JS.toNumber v))%js = false.
Proof.
  destruct v as [x|scale q]; unfold JS.lt; cbn [JS.toNumber];
    repeat split;
    first [apply float_ltb_irrefl | apply string_ltb_irrefl].
Qed.



(** ** Effective percentage *)

(** C9.  [getEffectivePercentage] of a fetched commission returns the
    stored percentage whenever it is present, 0 included: the string
    that carries it is truthy.  With no stored percentage it returns
    (amount / price) * 100 when the transaction is loaded and its price
    is above 0, a division by a positive number, and 0 otherwise: with
    no transaction loaded, or with a price that is not above 0, such as
    the price 0. *)
Theorem getEffectivePercentage_cases (c : Commission.t) :
  (forall q, Commission.percentage c = Some q ->
     Commission.getEffectivePercentage c = JS.Numeric 2 q)
  /\ (forall tx,
        Commission.percentage c = None ->
        Commission.transaction c = Some tx ->
        (0 <? JS.toNumber (Transaction.price_of tx))%float = true ->
        Commission.getEffectivePercentage c
        = JS.Num (JS.toNumber (Commission.amount_of c)
                  / JS.toNumber (Transaction.price_of tx) * 100)%float)
  /\ (forall tx,
        Commission.percentage c = None ->
        Commission.transaction c = Some tx ->
        (0 <? JS.toNumber (Transaction.price_of tx))%float = false ->
        Commission.getEffectivePercentage c = JS.Num 0%float)
  /\ (forall tx,
        Commission.percentage c = None ->
        Commission.transaction c = Some tx ->
        Transaction.price tx = 0%Qc ->
        Commission.getEffectivePercentage c = JS.Num 0%float)
  /\ (Commission.percentage c = None ->
      Commission.transaction c = None ->
      Commission.getEffectivePercentage c = JS.Num 0%float).
Proof.
  unfold Commission.getEffectivePercentage, Commission.percentage_of.
  repeat split.
  - intros q ->. reflexivity.
  - intros tx -> -> Hpos. cbn [fmap option_fmap option_map].
    change (Transaction.price_of tx > JS.Num 0%float)%js
      with (0 <? JS.toNumber (Transaction.price_of tx))%float.
    rewrite Hpos. reflexivity.
  - intros tx -> -> Hpos. cbn [fmap option_fmap option_map].
    change (Transaction.price_of tx > JS.Num 0%float)%js
      with (0 <? JS.toNumber (Transaction.price_of tx))%float.
    rewrite Hpos. reflexivity.
  - intros tx -> -> Hzero. cbn [fmap option_fmap option_map].
    unfold Transaction.price_of. rewrite Hzero. reflexivity.
  - intros -> ->. reflexivity.
Qed.

(** A commission of 500 on a sale at 10000 whose percentage is stored
    as 0: the string "0.00" is returned, where the specification gives
    (500 / 10000) * 100 = 5. *)
Lemma getEffectivePercentage_zero_counterexample :
  Commission.percentage Sample.zero_rated = Some 0%Qc
  /\ Commission.transaction Sample.zero_rated
     = Some (Sample.sale 10000 COMPLETED None)
  /\ (0 < Transaction.price (Sample.sale 10000 COMPLETED None))%Qc
  /\ Commission.getEffectivePercentage Sample.zero_rated
     = JS.Numeric 2 0%Qc
  /\ JS.toNumber (Commission.getEffectivePercentage Sample.zero_rated)
     = 0%float
  /\ (JS.toNumber (Commission.amount_of Sample.zero_rated)
      / JS.toNumber (Transaction.price_of (Sample.sale 10000 COMPLETED None))
      * 100)%float = 5%float.
Proof. repeat split; reflexivity. Qed.

(** ** Transaction numbers *)

(** With a six-digit or longer expansion the suffix has six characters:
    the double 1234567890123456 / 2^53 prints as 0.4xmvue8... *)
Example transaction_number_sample :
  eval generateTransactionNumber
    (Sample.world Sample.defaults Sample.dealer_sale
       (Sample.listing RESERVED) 1234567890123456)
  = "TXN-20240115-4XMVUE".
Proof. vm_compute. reflexivity. Qed.

(** C7.  When [Math.random()] returns 0.5, which prints as "0.i" in
    base 36, the number generated on 15 January 2024 is
    "TXN-20240115-I": one character after the second dash, not six. *)
Theorem transaction_number_short_suffix :
  random Sample.dealer_world (random_reads Sample.dealer_world) = (2 ^ 52)%N
  /\ toString36 (2 ^ 52) = "0.i"
  /\ eval generateTransactionNumber Sample.dealer_world = "TXN-20240115-I"
  /\ String.length (eval generateTransactionNumber Sample.dealer_world)
     = 14%nat
  /\ String.length "TXN-YYYYMMDD-XXXXXX" = 19%nat.
Proof. repeat split; vm_compute; reflexivity. Qed.

(** ** Aggregates *)

Lemma sum_rows_empty {A} (f : A -> Qc) : sum_rows f (∅ : gmap string A) = 0%Qc.
Proof. apply map_fold_empty. Qed.

Lemma sum_rows_insert {A} (f : A -> Qc) (rows : gmap string A) (k : string)
  (x : A) :
  rows !! k = None ->
  sum_rows f (<[k:=x]> rows) = (f x + sum_rows f rows)%Qc.
Proof.
  intros Hk. unfold sum_rows.
  rewrite map_fold_insert_L; [reflexivity| |exact Hk].
  intros. ring.
Qed.

Lemma count_rows_empty {A} (p : A -> bool) :
  count_rows p (∅ : gmap string A) = 0%nat.
Proof. unfold count_rows. now rewrite map_filter_empty, map_size_empty. Qed.

Lemma count_rows_insert {A} (p : A -> bool) (rows : gmap string A)
  (k : string) (x : A) :
  rows !! k = None ->
  count_rows p (<[k:=x]> rows)
  = ((if p x then 1 else 0) + count_rows p rows)%nat.
Proof.
  intros Hk. unfold count_rows. destruct (p x) eqn:E.
  - rewrite map_filter_insert_True by exact E.
    rewrite map_size_insert_None; [reflexivity|].
    apply map_lookup_filter_None. now left.
  - rewrite map_filter_insert_False by (simpl; congruence).
    now rewrite delete_id.
Qed.

Lemma where_rows_insert {A} (p : A -> bool) (rows : gmap string A)
  (k : string) (x : A) :
  rows !! k = None ->
  where_rows p (<[k:=x]> rows)
  = if p x then <[k:=x]> (where_rows p rows) else where_rows p rows.
Proof.
  intros Hk. unfold where_rows. destruct (p x) eqn:E.
  - now rewrite map_filter_insert_True.
  - rewrite map_filter_insert_False by (simpl; congruence).
    now rewrite delete_id.
Qed.

Lemma where_rows_lookup_None {A} (p : A -> bool) (rows : gmap string A)
  (k : string) :
  rows !! k = None -> where_rows p rows !! k = None.
Proof. intros Hk. apply map_lookup_filter_None. now left. Qed.

(** SUM over the selected rows is SUM of the guarded term over all. *)
Lemma sum_rows_where {A} (p : A -> bool) (f : A -> Qc) (rows : gmap string A) :
  sum_rows f (where_rows p rows)
  = sum_rows (fun x => if p x then f x else 0%Qc) rows.
Proof.
  induction rows as [|k x rows Hk IH] using map_ind.
  - unfold where_rows. now rewrite map_filter_empty, !sum_rows_empty.
  - rewrite where_rows_insert, (sum_rows_insert _ _ _ _ Hk) by exact Hk.
    destruct (p x).
    + rewrite sum_rows_insert by now apply where_rows_lookup_None.
      now rewrite IH.
    + rewrite IH. ring.
Qed.

Lemma count_rows_where {A} (p q : A -> bool) (rows : gmap string A) :
  count_rows q (where_rows p rows)
  = count_rows (fun x => p x && q x) rows.
Proof.
  induction rows as [|k x rows Hk IH] using map_ind.
  - unfold where_rows. now rewrite map_filter_empty, !count_rows_empty.
  - rewrite where_rows_insert, (count_rows_insert _ _ _ _ Hk) by exact Hk.
    destruct (p x); simpl.
    + rewrite count_rows_insert by now apply where_rows_lookup_None.
      now rewrite IH.
    + exact IH.
Qed.

Lemma size_where {A} (p : A -> bool) (rows : gmap string A) :
  size (where_rows p rows) = count_rows p rows.
Proof. reflexivity. Qed.

Lemma sum_rows_add {A} (f g : A -> Qc) (rows : gmap string A) :
  sum_rows (fun x => (f x + g x)%Qc) rows
  = (sum_rows f rows + sum_rows g rows)%Qc.
Proof.
  induction rows as [|k x rows Hk IH] using map_ind.
  - rewrite !sum_rows_empty. ring.
  - rewrite !sum_rows_insert by exact Hk. rewrite IH. ring.
Qed.

Lemma sum_rows_ext {A} (f g : A -> Qc) (rows : gmap string A) :
  (forall k x, rows !! k = Some x -> f x = g x) ->
  sum_rows f rows = sum_rows g rows.
Proof.
  induction rows as [|k x rows Hk IH] using map_ind; intros Hfg.
  - now rewrite !sum_rows_empty.
  - rewrite !sum_rows_insert by exact Hk.
    rewrite (Hfg k x) by apply lookup_insert_eq.
    rewrite IH; [reflexivity|].
    intros j y Hj. apply (Hfg j). rewrite lookup_insert_ne; [exact Hj|].
    intros ->. congruence.
Qed.

Lemma sum_rows_zero {A} (f : A -> Qc) (rows : gmap string A) :
  (forall k x, rows !! k = Some x -> f x = 0%Qc) ->
  sum_rows f rows = 0%Qc.
Proof.
  induction rows as [|k x rows Hk IH] using map_ind; intros Hz.
  - apply sum_rows_empty.
  - rewrite sum_rows_insert by exact Hk.
    rewrite (Hz k x) by apply lookup_insert_eq.
    rewrite IH; [ring|].
    intros j y Hj. apply (Hz j). rewrite lookup_insert_ne; [exact Hj|].
    intros ->. congruence.
Qed.

Lemma count_rows_zero_iff {A} (p : A -> bool) (rows : gmap string A) :
  count_rows p rows = 0%nat
  <-> forall k x, rows !! k = Some x -> p x = false.
Proof.
  unfold count_rows. rewrite map_size_empty_iff. split.
  - intros Hempty k x Hx. apply not_true_iff_false. intros Hp.
    assert (Hin : filter (fun kr : string * A => p kr.2 = true) rows !! k
                  = Some x) by now apply map_lookup_filter_Some.
    rewrite Hempty in Hin. discriminate.
  - intros Hall. apply map_empty. intros k. apply eq_None_not_Some.
    intros [x Hx]. apply map_lookup_filter_Some in Hx as [Hx Hp].
    simpl in Hp. rewrite (Hall _ _ Hx) in Hp. discriminate.
Qed.

(** The three sums of [getSellerStats] over no row are null. *)
Lemma SUM_size {A} (f g : A -> Qc) (rows : gmap string A) :
  sum_rows f rows = sum_rows g rows -> SUM f rows = SUM g rows.
Proof. unfold SUM. now intros ->. Qed.

Lemma parseFloat_zero {A} (f : A -> Qc) (rows : gmap string A) :
  sum_rows f rows = 0%Qc -> parseFloat_or_zero (SUM f rows) = 0%float.
Proof.
  intros H. unfold SUM. rewrite H. now destruct (size rows =? 0)%nat.
Qed.

Lemma getSellerStats_run (sellerId : string) (w : World) :
  getSellerStats sellerId w
  = ({| SellerStats.totalEarned :=
          parseFloat_or_zero (SUM Commission.amount (earned_by w sellerId));
        SellerStats.totalPaid :=
          parseFloat_or_zero (SUM paid_part (earned_by w sellerId));
        SellerStats.totalPending :=
          parseFloat_or_zero (SUM pending_part (earned_by w sellerId));
        SellerStats.pendingCount :=
          count_rows (fun c => negb (Commission.is_paid c))
            (earned_by w sellerId) |}, w).
Proof. reflexivity. Qed.


Lemma count_rows_le_size {A} (p : A -> bool) (rows : gmap string A) :
  (count_rows p rows <= size rows)%nat.
Proof. apply map_subseteq_size, map_filter_subseteq. Qed.

Lemma calculateStats_run (userId : string) (role : Party) (w : World) :
  calculateStats userId role w
  = (let mine := fun t => bool_decide (party_id role t = userId) in
     let has st := fun t => bool_decide (Transaction.status t = st) in
     {| TransactionStats.total := count_rows mine (transactions w);
        TransactionStats.completed :=
          count_rows (fun t => mine t && has COMPLETED t) (transactions w);
        TransactionStats.pending :=
          count_rows (fun t => mine t && has PENDING t) (transactions w);
        TransactionStats.cancelled :=
          count_rows (fun t => mine t && has CANCELLED t) (transactions w);
        TransactionStats.totalAmount :=
          parseFloat_or_zero
            (SUM (fun t => if has COMPLETED t
                           then Transaction.price t else 0%Qc)
               (where_rows mine (transactions w))) |}, w).
Proof.
  unfold calculateStats. cbv zeta.
  now rewrite !count_rows_where, size_where.
Qed.

(** X10.  [calculateStats] only reads.  The transactions of the user are its
    completed, pending and cancelled ones plus those that are processing
    or refunded, which the statistics do not show: the three counts add
    up to at most the total, and to the total exactly when none is
    processing or refunded.  The amount is 0 with no completed
    transaction. *)
Theorem calculateStats_partition (w : World) (userId : string)
  (role : Party) :
  let s := eval (calculateStats userId role) w in
  let mine := fun t => bool_decide (party_id role t = userId) in
  let inflight :=
    count_rows (fun t => mine t
                         && (bool_decide (Transaction.status t = PROCESSING)
                             || bool_decide (Transaction.status t = REFUNDED)))
      (transactions w) in
  exec (calculateStats userId role) w = w
  /\ TransactionStats.total s
     = (TransactionStats.completed s + TransactionStats.pending s
        + TransactionStats.cancelled s + inflight)%nat
  /\ (TransactionStats.total s <= size (transactions w))%nat
  /\ (TransactionStats.completed s = 0%nat ->
      TransactionStats.totalAmount s = 0%float).
Proof.
  intros s mine inflight. subst s inflight.
  unfold eval, exec. rewrite calculateStats_run. cbv zeta.
  cbn [fst snd TransactionStats.total TransactionStats.completed
       TransactionStats.pending TransactionStats.cancelled
       TransactionStats.totalAmount].
  subst mine.
  split; [reflexivity|]. split; [|split].
  - induction (transactions w) as [|k x rows Hk IH] using map_ind.
    + now rewrite !count_rows_empty.
    + rewrite !count_rows_insert by exact Hk. rewrite IH.
      clear IH.
      repeat match goal with
             | |- context [count_rows ?p rows] =>
                 generalize (count_rows p rows); intro
             end.
      destruct (bool_decide (party_id role x = userId)); cbn [andb];
        [|lia].
      destruct (Transaction.status x); simpl; lia.
  - apply count_rows_le_size.
  - intros Hnone. apply parseFloat_zero. rewrite sum_rows_where.
    apply sum_rows_zero. intros k t Ht.
    pose proof (proj1 (count_rows_zero_iff _ _) Hnone k t Ht) as Hp.
    cbv beta in Hp.
    destruct (bool_decide (party_id role t = userId)); [|reflexivity].
    cbn [andb] in Hp. now rewrite Hp.
Qed.

(** ** Processing and paying *)

Lemma lookup_patch_where {A} (p : string -> A -> bool) (f : A -> A)
  (rows : gmap string A) (k : string) :
  patch_where p f rows !! k
  = (fun row => if p k row then f row else row) <$> rows !! k.
Proof.
  unfold patch_where. rewrite map_lookup_imap.
  now destruct (rows !! k).
Qed.

Lemma process_run (this : Transaction.t) (w : World) :
  outcome (process this) w = inr tt
  /\ transactions (after (process this) w)
     = patch_where (by_id (Transaction.id this))
         (Transaction.patch
            {| Transaction.set_status := Some PROCESSING;
               Transaction.set_payment_reference := None;
               Transaction.set_completed_at := None;
               Transaction.set_cancelled_reason := None;
               Transaction.set_cancelled_at := None;
               Transaction.set_updated_at := Some (clock w (clock_reads w)) |})
         (transactions w)
  /\ vehicles (after (process this) w) = vehicles w
  /\ commissions (after (process this) w) = commissions w.
Proof. repeat split; reflexivity. Qed.



(** X5.  [markAsPaid] gives [paid_at] a [Date], which the schema declares a
    string or null: on any commission, paid or not, the patch fails
    validation with a ValidationError after the one reading of the
    clock, and no commission, transaction or vehicle is written. *)
Theorem markAsPaid_throws (w : World) (this : Commission.t)
  (paymentReference : string) :
  outcome (markAsPaid this paymentReference) w = inl ValidationError
  /\ commissions (after (markAsPaid this paymentReference) w) = commissions w
  /\ transactions (after (markAsPaid this paymentReference) w)
     = transactions w
  /\ vehicles (after (markAsPaid this paymentReference) w) = vehicles w
  /\ clock_reads (after (markAsPaid this paymentReference) w)
     = S (clock_reads w).
Proof.
  unfold outcome, after. rewrite markAsPaid_run. repeat split; reflexivity.
Qed.

(** ** The shape of a transaction number *)

Lemma length_append (s1 s2 : string) :
  String.length (s1 +:+ s2) = (String.length s1 + String.length s2)%nat.
Proof. induction s1 as [|c s1 IH]; simpl; [reflexivity | now rewrite IH]. Qed.

Lemma length_toUpperCase (s : string) :
  String.length (toUpperCase s) = String.length s.
Proof. induction s as [|c s IH]; simpl; [reflexivity | now rewrite IH]. Qed.

Lemma length_substring_le (n m : nat) (s : string) :
  (String.length (String.substring n m s) <= m)%nat.
Proof.
  revert n m. induction s as [|c s IH]; intros [|n] [|m]; simpl; try lia.
  - specialize (IH 0%nat m). lia.
  - apply (IH n 0%nat).
  - apply (IH n (S m)).
Qed.

Lemma all_chars_substring (p : ascii -> bool) (n m : nat) (s : string) :
  all_chars p s = true -> all_chars p (String.substring n m s) = true.
Proof.
  unfold all_chars. revert n m.
  induction s as [|c s IH]; intros [|n] [|m]; simpl; try reflexivity.
  - rewrite !andb_true_iff. intros [Hc Hs]. split; [exact Hc|].
    now apply (IH 0%nat m).
  - rewrite andb_true_iff. intros [_ Hs]. now apply (IH n 0%nat).
  - rewrite andb_true_iff. intros [_ Hs]. now apply (IH n (S m)).
Qed.

Lemma all_chars_toUpperCase (p : ascii -> bool) (s : string) :
  all_chars (fun c => p (upper c)) s = true ->
  all_chars p (toUpperCase s) = true.
Proof.
  unfold all_chars. induction s as [|c s IH]; simpl; [reflexivity|].
  rewrite !andb_true_iff. intros [Hc Hs]. auto.
Qed.

Lemma digit36_upper_alnum (d : N) : is_upper_alnum (upper (digit36 d)) = true.
Proof.
  unfold digit36.
  assert (Hall : forallb (fun c => is_upper_alnum (upper c))
            (list_ascii_of_string "0123456789abcdefghijklmnopqrstuvwxyz")
          = true) by reflexivity.
  destruct (list_ascii_of_string "0123456789abcdefghijklmnopqrstuvwxyz"
              !! N.to_nat d) as [c|] eqn:E; [|reflexivity].
  simpl. rewrite forallb_forall in Hall. apply Hall.
  apply list_elem_of_In. eapply list_elem_of_lookup_2. exact E.
Qed.

Lemma suffix_shape (r : N) :
  (String.length (toUpperCase (substring 2 8 (toString36 r))) <= 6)%nat
  /\ all_chars is_upper_alnum (toUpperCase (substring 2 8 (toString36 r)))
     = true.
Proof.
  split.
  - rewrite length_toUpperCase. unfold substring.
    apply (length_substring_le 2 6).
  - apply all_chars_toUpperCase. unfold substring, toString36. cbv zeta.
    match goal with |- context [if ?c then _ else _] => destruct c end;
      [|reflexivity].
    destruct (fraction36 _ _ _ _) as [written [|]]; [reflexivity|].
    change (String.substring 2 (8 - 2)
              ("0." +:+ string_of_list_ascii (digit36 <$> reverse written)))
      with (String.substring 0 6
              (string_of_list_ascii (digit36 <$> reverse written))).
    apply all_chars_substring. unfold all_chars.
    rewrite list_ascii_of_string_of_list_ascii.
    apply forallb_forall. intros c Hc.
    apply list_elem_of_In, list_elem_of_fmap in Hc as (d & -> & _).
    apply digit36_upper_alnum.
Qed.

Lemma all_from_spec (p : Z -> bool) (n : nat) (from : Z) :
  all_from p n from = true ->
  forall z, from <= z < from + Z.of_nat n -> p z = true.
Proof.
  revert from. induction n as [|n IH]; intros from Hall z Hz; [lia|].
  simpl in Hall. apply andb_true_iff in Hall as [Hfrom Hrest].
  destruct (decide (z = from)) as [->|Hne]; [exact Hfrom|].
  apply (IH (from + 1)); [exact Hrest | lia].
Qed.

Lemma year_shape (y : Z) :
  1000 <= y <= 9999 ->
  String.length (pretty y) = 4%nat /\ all_chars is_digit (pretty y) = true.
Proof.
  intros Hy.
  assert (Hall : all_from
            (fun z => (String.length (pretty z) =? 4)%nat
                      && all_chars is_digit (pretty z))
            (Z.to_nat 9000) 1000 = true) by (vm_compute; reflexivity).
  pose proof (all_from_spec _ _ _ Hall y) as H.
  rewrite Z2Nat.id in H by lia. specialize (H ltac:(lia)).
  apply andb_true_iff in H as [Hlen Hdig].
  split; [now apply Nat.eqb_eq | exact Hdig].
Qed.

Lemma two_digits_shape (lo : Z) (n : nat) (z : Z) :
  all_from
    (fun z => (String.length (padStart 2 "0" (pretty z)) =? 2)%nat
              && all_chars is_digit (padStart 2 "0" (pretty z))) n lo
  = true ->
  lo <= z < lo + Z.of_nat n ->
  String.length (padStart 2 "0" (pretty z)) = 2%nat
  /\ all_chars is_digit (padStart 2 "0" (pretty z)) = true.
Proof.
  intros Hall Hz. pose proof (all_from_spec _ _ _ Hall z Hz) as H.
  apply andb_true_iff in H as [Hlen Hdig].
  split; [now apply Nat.eqb_eq | exact Hdig].
Qed.



(** ** Pagination *)

Lemma ceil_div_spec (a b : Z) :
  0 < b -> Pagination.ceil_div a b = - ((- a) / b).
Proof.
  intros Hb. unfold Pagination.ceil_div, Qceiling. f_equal.
  rewrite Zdiv_Qdiv. apply Qfloor_comp.
  rewrite inject_Z_opp. unfold Qdiv. ring.
Qed.

Lemma ceil_div_bounds (n L : Z) :
  0 < L -> 0 <= n ->
  let P := Pagination.ceil_div n L in
  n <= P * L /\ (P - 1) * L < n \/ (n = 0 /\ P = 0).
Proof.
  intros HL Hn P. subst P. rewrite ceil_div_spec by exact HL.
  pose proof (Z.div_mod (- n) L ltac:(lia)) as Hdm.
  pose proof (Z.mod_pos_bound (- n) L HL) as Hmod.
  destruct (decide (n = 0)) as [->|Hne].
  - right. split; [reflexivity|]. now rewrite Z.opp_0, Z.div_0_l by lia.
  - left. nia.
Qed.

Lemma ceil_div_gt (n L p : Z) :
  0 < L -> 0 <= n -> (p < Pagination.ceil_div n L <-> p * L < n).
Proof.
  intros HL Hn. rewrite ceil_div_spec by exact HL.
  pose proof (Z.div_mod (- n) L ltac:(lia)) as Hdm.
  pose proof (Z.mod_pos_bound (- n) L HL) as Hmod.
  split; intros H; nia.
Qed.

Lemma paginate_page (params : Pagination.Params) :
  1 <= Z.max 1 (Pagination.or_else (Pagination.page params) 1).
Proof. lia. Qed.

Lemma paginate_limit (params : Pagination.Params) :
  1 <= Z.min 100 (Z.max 1 (Pagination.or_else (Pagination.limit params) 20))
  <= 100.
Proof. lia. Qed.

Lemma paginate_ranges {T}
  (sort : string -> Pagination.Order -> list T -> list T)
  (query : list T) (params : Pagination.Params) :
  let r := Pagination.paginate sort query params in
  1 <= Pagination.current r
  /\ 1 <= Pagination.size r <= 100
  /\ Pagination.total r = Z.of_nat (length query).
Proof.
  intros r. subst r. unfold Pagination.paginate.
  cbn [Pagination.current Pagination.size Pagination.total]. lia.
Qed.

(** X13.  [paginate] always answers with a page number of at least 1 and a
    page size between 1 and 100, whatever was asked: an absent or zero
    page is page 1, an absent or zero limit is 20, a negative one is 1
    and one above 100 is 100; a page from 1 and a limit from 1 to 100
    are kept.  The data never hold more rows than the page size, and the
    total is the number of rows of the query. *)
Theorem paginate_bounds {T} (sort : string -> Pagination.Order -> list T -> list T)
  (query : list T) (params : Pagination.Params) :
  let r := Pagination.paginate sort query params in
  1 <= Pagination.current r
  /\ 1 <= Pagination.size r <= 100
  /\ Z.of_nat (length (Pagination.data r)) <= Pagination.size r
  /\ Pagination.total r = Z.of_nat (length query)
  /\ (forall p, Pagination.page params = Some p ->
        Pagination.current r = if p <=? 0 then 1 else p)
  /\ (Pagination.page params = None -> Pagination.current r = 1)
  /\ (forall l, Pagination.limit params = Some l ->
        Pagination.size r
        = if l =? 0 then 20 else if l <? 1 then 1
          else if 100 <? l then 100 else l)
  /\ (Pagination.limit params = None -> Pagination.size r = 20).
Proof.
  intros r. subst r. unfold Pagination.paginate.
  cbn [Pagination.current Pagination.size Pagination.data Pagination.total].
  pose proof (paginate_page params) as Hp.
  pose proof (paginate_limit params) as Hl.
  repeat apply conj; try lia.
  - rewrite length_take. lia.
  - intros p ->. unfold Pagination.or_else.
    destruct (Z.eqb_spec p 0), (Z.leb_spec p 0); lia.
  - intros ->. reflexivity.
  - intros l ->. unfold Pagination.or_else.
    destruct (Z.eqb_spec l 0), (Z.ltb_spec l 1), (Z.ltb_spec 100 l); lia.
  - intros ->. reflexivity.
Qed.

Lemma ordered_length {T} (sort : string -> Pagination.Order -> list T -> list T)
  (query : list T) (params : Pagination.Params) :
  (forall c o rows, length (sort c o rows) = length rows) ->
  length (Pagination.ordered sort query params) = length query.
Proof.
  intros Hsort. unfold Pagination.ordered.
  destruct (Pagination.orderBy params) as [c|]; [|reflexivity].
  now destruct (bool_decide (c = "")).
Qed.

Lemma paginate_data {T} (sort : string -> Pagination.Order -> list T -> list T)
  (query : list T) (params : Pagination.Params) :
  Pagination.data (Pagination.paginate sort query params)
  = take (Z.to_nat (Pagination.size (Pagination.paginate sort query params)))
      (drop (Z.to_nat
               ((Pagination.current (Pagination.paginate sort query params) - 1)
                * Pagination.size (Pagination.paginate sort query params)))
         (Pagination.ordered sort query params)).
Proof. reflexivity. Qed.

(** X14.  When the ordering keeps the number of rows, [hasNextPage] is true
    exactly when rows are left after those of this page, that is when
    page * limit is below the total; [hasPreviousPage] is true from
    page 2 on; there is no page exactly when there is no row; and a
    page beyond the last one has no data. *)
Theorem paginate_hasNextPage {T}
  (sort : string -> Pagination.Order -> list T -> list T)
  (query : list T) (params : Pagination.Params) :
  (forall c o rows, length (sort c o rows) = length rows) ->
  let r := Pagination.paginate sort query params in
  let offset := (Pagination.current r - 1) * Pagination.size r in
  (Pagination.hasNextPage r = true
   <-> Pagination.current r * Pagination.size r < Pagination.total r)
  /\ (Pagination.hasNextPage r = true
      <-> offset + Z.of_nat (length (Pagination.data r)) < Pagination.total r)
  /\ (Pagination.hasPreviousPage r = true <-> 1 < Pagination.current r)
  /\ (Pagination.totalPages r = 0 <-> Pagination.total r = 0)
  /\ (Pagination.totalPages r < Pagination.current r ->
      Pagination.data r = []).
Proof.
  intros Hsort r offset.
  pose proof (paginate_ranges sort query params) as
    (Hcur & Hsize & Htotal).
  fold r in Hcur, Hsize, Htotal.
  assert (Hlen : Z.of_nat (length (Pagination.data r))
                 = Z.max 0 (Z.min (Pagination.size r)
                              (Pagination.total r - offset))).
  { unfold r at 1. rewrite paginate_data. fold r.
    rewrite length_take, length_drop, (ordered_length _ _ _ Hsort).
    rewrite Htotal. subst offset.
    assert (0 <= (Pagination.current r - 1) * Pagination.size r) by nia.
    lia. }
  assert (Hnext : Pagination.hasNextPage r = true
                  <-> Pagination.current r * Pagination.size r
                      < Pagination.total r).
  { change (Pagination.hasNextPage r)
      with (Pagination.current r <? Pagination.totalPages r).
    rewrite Z.ltb_lt.
    change (Pagination.totalPages r)
      with (Pagination.ceil_div (Pagination.total r) (Pagination.size r)).
    apply ceil_div_gt; lia. }
  pose proof (ceil_div_bounds (Pagination.total r) (Pagination.size r)
                ltac:(lia) ltac:(lia)) as Hceil.
  cbv zeta in Hceil.
  change (Pagination.ceil_div (Pagination.total r) (Pagination.size r))
    with (Pagination.totalPages r) in Hceil.
  split; [exact Hnext|]. split; [|split; [|split]].
  - rewrite Hnext, Hlen. subst offset. lia.
  - change (Pagination.hasPreviousPage r) with (1 <? Pagination.current r).
    apply Z.ltb_lt.
  - destruct Hceil as [[H1 H2]|[H1 H2]]; split; intros H; nia.
  - intros Hbeyond.
    assert (Hzero : Z.of_nat (length (Pagination.data r)) = 0).
    { rewrite Hlen. subst offset.
      destruct Hceil as [[H1 H2]|[H1 H2]]; nia. }
    destruct (Pagination.data r); [reflexivity | simpl in Hzero; lia].
Qed.

(** The third page of size 2 of five numbers, in descending order. *)
Lemma paginate_hasNextPage_witness :
  (forall c o (rows : list nat),
      length (Pagination.flip c o rows) = length rows)
  /\ let r := Pagination.paginate Pagination.flip [1; 2; 3; 4; 5]%nat
                {| Pagination.page := Some 3; Pagination.limit := Some 2;
                   Pagination.orderBy := Some "id";
                   Pagination.order := Some Pagination.Desc |} in
     Pagination.data r = [1%nat]
     /\ (Pagination.hasNextPage r = true
         <-> Pagination.current r * Pagination.size r < Pagination.total r)
     /\ (Pagination.totalPages r = 0 <-> Pagination.total r = 0).
Proof.
  assert (Hsort : forall c o (rows : list nat),
            length (Pagination.flip c o rows) = length rows).
  { intros c [|] rows; simpl; [reflexivity | apply length_reverse]. }
  split; [exact Hsort|].
  pose proof (paginate_hasNextPage Pagination.flip [1; 2; 3; 4; 5]%nat
                {| Pagination.page := Some 3; Pagination.limit := Some 2;
                   Pagination.orderBy := Some "id";
                   Pagination.order := Some Pagination.Desc |} Hsort)
    as (Hnext & _ & _ & Hnone & _).
  split; [reflexivity|]. split; [exact Hnext | exact Hnone].
Defined.

Lemma chunks_take {T} (rows : list T) (L k : nat) :
  concat (map (fun i => take L (drop (i * L) rows)) (seq 0 k))
  = take (k * L) rows.
Proof.
  induction k as [|k IH]; [reflexivity|].
  rewrite seq_S, map_app, concat_app, IH. simpl.
  rewrite app_nil_r, take_take_drop. f_equal. lia.
Qed.

Lemma paginate_at_page {T}
  (sort : string -> Pagination.Order -> list T -> list T)
  (query : list T) (params : Pagination.Params) (i : nat) :
  Pagination.data
    (Pagination.paginate sort query
       (Pagination.at_page params (Z.of_nat (S i))))
  = take (Z.to_nat (Pagination.size (Pagination.paginate sort query params)))
      (drop (i * Z.to_nat
                   (Pagination.size (Pagination.paginate sort query params)))
         (Pagination.ordered sort query params)).
Proof.
  rewrite paginate_data.
  change (Pagination.size
            (Pagination.paginate sort query
               (Pagination.at_page params (Z.of_nat (S i)))))
    with (Pagination.size (Pagination.paginate sort query params)).
  change (Pagination.ordered sort query
            (Pagination.at_page params (Z.of_nat (S i))))
    with (Pagination.ordered sort query params).
  pose proof (paginate_limit params) as Hl.
  change (Z.min 100
            (Z.max 1 (Pagination.or_else (Pagination.limit params) 20)))
    with (Pagination.size (Pagination.paginate sort query params)) in Hl.
  assert (Hcur : Pagination.current
                   (Pagination.paginate sort query
                      (Pagination.at_page params (Z.of_nat (S i))))
                 = Z.of_nat (S i)).
  { unfold Pagination.paginate, Pagination.at_page, Pagination.or_else.
    cbn [Pagination.current Pagination.page].
    destruct (Z.eqb_spec (Z.of_nat (S i)) 0); lia. }
  rewrite Hcur. do 2 f_equal.
  rewrite Z2Nat.inj_mul by lia. f_equal. lia.
Qed.

(** X15.  When the ordering keeps the number of rows, the pages 1 to
    [totalPages] of a request, one after the other, are the ordered rows
    of the query: no row is lost and none is served twice. *)
Theorem paginate_pages_cover {T}
  (sort : string -> Pagination.Order -> list T -> list T)
  (query : list T) (params : Pagination.Params) :
  (forall c o rows, length (sort c o rows) = length rows) ->
  let r := Pagination.paginate sort query params in
  concat
    (map (fun i =>
            Pagination.data
              (Pagination.paginate sort query
                 (Pagination.at_page params (Z.of_nat (S i)))))
       (seq 0 (Z.to_nat (Pagination.totalPages r))))
  = Pagination.ordered sort query params.
Proof.
  intros Hsort r.
  rewrite (map_ext _ _ (paginate_at_page sort query params)).
  fold r. rewrite chunks_take. apply take_ge.
  rewrite (ordered_length _ _ _ Hsort).
  pose proof (paginate_ranges sort query params) as
    (Hcur & Hsize & Htotal).
  fold r in Hcur, Hsize, Htotal.
  pose proof (ceil_div_bounds (Pagination.total r) (Pagination.size r)
                ltac:(lia) ltac:(lia)) as Hceil.
  cbv zeta in Hceil.
  change (Pagination.ceil_div (Pagination.total r) (Pagination.size r))
    with (Pagination.totalPages r) in Hceil.
  destruct Hceil as [[H1 H2]|[H1 H2]]; nia.
Qed.

(** Five numbers in pages of 2, in descending order. *)
Lemma paginate_pages_cover_witness :
  (forall c o (rows : list nat),
      length (Pagination.flip c o rows) = length rows)
  /\ concat
       (map (fun i =>
               Pagination.data
                 (Pagination.paginate Pagination.flip [1; 2; 3; 4; 5]%nat
                    (Pagination.at_page
                       {| Pagination.page := None;
                          Pagination.limit := Some 2;
                          Pagination.orderBy := Some "id";
                          Pagination.order := Some Pagination.Desc |}
                       (Z.of_nat (S i)))))
          (seq 0 (Z.to_nat
                    (Pagination.totalPages
                       (Pagination.paginate Pagination.flip
                          [1; 2; 3; 4; 5]%nat
                          {| Pagination.page := None;
                             Pagination.limit := Some 2;
                             Pagination.orderBy := Some "id";
                             Pagination.order := Some Pagination.Desc |})))))
     = [5; 4; 3; 2; 1]%nat.
Proof.
  assert (Hsort : forall c o (rows : list nat),
            length (Pagination.flip c o rows) = length rows).
  { intros c [|] rows; simpl; [reflexivity | apply length_reverse]. }
  split; [exact Hsort|].
  exact (paginate_pages_cover Pagination.flip [1; 2; 3; 4; 5]%nat
           {| Pagination.page := None; Pagination.limit := Some 2;
              Pagination.orderBy := Some "id";
              Pagination.order := Some Pagination.Desc |} Hsort).
Defined.

(** ** Reviews *)

(** X16.  [getRatingStars] gives five symbols, the filled ones first and as
    many as the rating, for a rating from 0 to 5, and raises a
    RangeError for any other; a review is never both positive and
    negative, and one rated 3 is neither. *)
Theorem rating_presentation (this : Review.t) :
  (0 <= Review.rating this <= 5 ->
   exists stars,
     Review.getRatingStars this = Some stars
     /\ length stars = 5%nat
     /\ stars = replicate (Z.to_nat (Review.rating this)) Review.Filled
                ++ replicate (Z.to_nat (5 - Review.rating this)) Review.Hollow)
  /\ (Review.rating this < 0 \/ 5 < Review.rating this ->
      Review.getRatingStars this = None)
  /\ Review.isPositive this && Review.isNegative this = false
  /\ (Review.rating this = 3 ->
      Review.isPositive this = false /\ Review.isNegative this = false).
Proof.
  unfold Review.getRatingStars, Review.repeat_star, Review.isPositive,
    Review.isNegative.
  split; [|split; [|split]].
  - intros Hr.
    destruct (Z.ltb_spec (Review.rating this) 0); [lia|].
    destruct (Z.ltb_spec (5 - Review.rating this) 0); [lia|].
    eexists. split; [reflexivity|]. split; [|reflexivity].
    rewrite length_app, !length_replicate. lia.
  - intros Hr.
    destruct (Z.ltb_spec (Review.rating this) 0); [reflexivity|].
    destruct (Z.ltb_spec (5 - Review.rating this) 0); [reflexivity|lia].
  - destruct (Z.leb_spec 4 (Review.rating this)),
             (Z.leb_spec (Review.rating this) 2); simpl; try reflexivity.
    lia.
  - intros ->. split; reflexivity.
Qed.

Lemma first_row_None {A} (p : A -> bool) (rows : gmap string A) :
  first_row p rows = None
  <-> forall k r, rows !! k = Some r -> p r = false.
Proof.
  unfold first_row. rewrite fmap_None, head_None, map_to_list_empty_iff.
  unfold where_rows. split.
  - intros Hempty k r Hr. apply not_true_iff_false. intros Hp.
    assert (Hin : filter (fun kr : string * A => p kr.2 = true) rows !! k
                  = Some r) by now apply map_lookup_filter_Some.
    rewrite Hempty in Hin. discriminate.
  - intros Hall. apply map_empty. intros k. apply eq_None_not_Some.
    intros [r Hr]. apply map_lookup_filter_Some in Hr as [Hr Hp].
    simpl in Hp. rewrite (Hall _ _ Hr) in Hp. discriminate.
Qed.

Lemma first_row_Some {A} (p : A -> bool) (rows : gmap string A) (r : A) :
  first_row p rows = Some r ->
  exists k, rows !! k = Some r /\ p r = true.
Proof.
  unfold first_row. intros H.
  apply fmap_Some in H as ([k r'] & Hhead & ->).
  apply head_Some_elem_of in Hhead.
  apply elem_of_map_to_list in Hhead.
  apply map_lookup_filter_Some in Hhead as [Hr Hp]. eauto.
Qed.

Lemma canReview_cases (s : Store) (transactionId userId : string) :
  let v := result (canReview transactionId userId) s in
  run (canReview transactionId userId) s = s
  /\ (Review.canReview v = true <->
      exists t,
        transactions (base s) !! transactionId = Some t
        /\ Transaction.status t = COMPLETED
        /\ (Transaction.buyer_id t = userId
            \/ Transaction.seller_id t = userId)
        /\ forall k r, reviews s !! k = Some r ->
             ~ (Review.transaction_id r = transactionId
                /\ Review.reviewer_id r = userId))
  /\ (Review.canReview v = true -> Review.reason v = None)
  /\ (Review.canReview v = false -> is_Some (Review.reason v))
  /\ (transactions (base s) !! transactionId = None ->
      Review.reason v = Some "Transaction not found")
  /\ (forall t, transactions (base s) !! transactionId = Some t ->
        Transaction.status t <> COMPLETED ->
        Review.reason v = Some "Transaction must be completed").
Proof.
  intros v. subst v. unfold run, result, canReview, read.
  unfold mbind, D_bind, mret, D_ret.
  destruct (transactions (base s) !! transactionId) as [t|] eqn:Ht.
  2:{ cbn [fst snd Review.canReview Review.reason].
      split; [reflexivity|]. split.
      { split; [discriminate|]. intros (t & Hs & _). discriminate. }
      split; [discriminate|]. split; [eauto|]. split; [reflexivity|].
      intros t Hs. discriminate. }
  destruct (bool_decide (Transaction.status t = COMPLETED)) eqn:Hst.
  2:{ apply bool_decide_eq_false in Hst.
      cbn [negb fst snd Review.canReview Review.reason].
      split; [reflexivity|]. split.
      { split; [discriminate|].
        intros (t' & [= <-] & Hc & _). contradiction. }
      split; [discriminate|]. split; [eauto|]. split; [discriminate|].
      reflexivity. }
  apply bool_decide_eq_true in Hst. cbn [negb].
  assert (Hpart :
    negb (bool_decide (Transaction.buyer_id t = userId))
    && negb (bool_decide (Transaction.seller_id t = userId)) = false
    <-> Transaction.buyer_id t = userId \/ Transaction.seller_id t = userId).
  { rewrite andb_false_iff, !negb_false_iff, !bool_decide_eq_true.
    reflexivity. }
  destruct (negb (bool_decide (Transaction.buyer_id t = userId))
            && negb (bool_decide (Transaction.seller_id t = userId)))
    eqn:Hstranger.
  { cbn [fst snd Review.canReview Review.reason].
    split; [reflexivity|]. split.
    { split; [discriminate|].
      intros (t' & [= <-] & _ & Hp & _). apply Hpart in Hp. discriminate. }
    split; [discriminate|]. split; [eauto|]. split; [discriminate|].
    intros t' [= <-] Hne. contradiction. }
  pose proof (proj1 Hpart eq_refl) as Hmember.
  destruct (first_row _ (reviews s)) as [r|] eqn:Hfirst;
    cbn [fst snd Review.canReview Review.reason].
  - split; [reflexivity|]. split.
    { split; [discriminate|].
      intros (t' & _ & _ & _ & Hnone).
      apply first_row_Some in Hfirst as (k & Hk & Hp).
      apply andb_true_iff in Hp as [H1 H2].
      apply bool_decide_eq_true in H1, H2.
      exfalso. now apply (Hnone k r Hk). }
    split; [discriminate|]. split; [eauto|]. split; [discriminate|].
    intros t' [= <-] Hne. contradiction.
  - split; [reflexivity|]. split.
    { split; [intros _|reflexivity]. exists t.
      split; [reflexivity|]. split; [exact Hst|]. split; [exact Hmember|].
      intros k r Hk [H1 H2].
      pose proof (proj1 (first_row_None _ _) Hfirst k r Hk) as Hp.
      cbv beta in Hp.
      rewrite (bool_decide_eq_true_2 _ H1),
        (bool_decide_eq_true_2 _ H2) in Hp. discriminate Hp. }
    split; [reflexivity|]. split; [discriminate|]. split; [discriminate|].
    intros t' [= <-] Hne. contradiction.
Qed.

(** X17.  [canReview] only reads.  It allows a review exactly when the
    transaction exists, is completed, the user is its buyer or its
    seller and no review of that transaction by that user is stored; a
    missing transaction and one that is not completed are reported
    before the user is looked at. *)
Theorem canReview_verdict (s : Store) (transactionId userId : string) :
  let v := result (canReview transactionId userId) s in
  run (canReview transactionId userId) s = s
  /\ (Review.canReview v = true <->
      exists t,
        transactions (base s) !! transactionId = Some t
        /\ Transaction.status t = COMPLETED
        /\ (Transaction.buyer_id t = userId
            \/ Transaction.seller_id t = userId)
        /\ forall k r, reviews s !! k = Some r ->
             ~ (Review.transaction_id r = transactionId
                /\ Review.reviewer_id r = userId))
  /\ (Review.canReview v = true -> Review.reason v = None)
  /\ (Review.canReview v = false -> is_Some (Review.reason v))
  /\ (transactions (base s) !! transactionId = None ->
      Review.reason v = Some "Transaction not found")
  /\ (forall t, transactions (base s) !! transactionId = Some t ->
        Transaction.status t <> COMPLETED ->
        Review.reason v = Some "Transaction must be completed").
Proof. apply canReview_cases. Qed.

Lemma Math_round_mean (sum : Z) (p : positive) :
  Math_round (inject_Z sum / inject_Z (Z.pos p) * 10)
  = (20 * sum + Z.pos p) / (2 * Z.pos p).
Proof.
  unfold Math_round, Qfloor, Qdiv, Qmult, Qplus, Qinv, inject_Z.
  cbn [Qnum Qden]. f_equal; lia.
Qed.

Lemma bump_histogram (c1 c2 c3 c4 c5 : nat) (k : Z) :
  1 <= k <= 5 ->
  bump (Review.histogram c1 c2 c3 c4 c5) k
  = Review.histogram
      (if bool_decide (k = 1) then S c1 else c1)
      (if bool_decide (k = 2) then S c2 else c2)
      (if bool_decide (k = 3) then S c3 else c3)
      (if bool_decide (k = 4) then S c4 else c4)
      (if bool_decide (k = 5) then S c5 else c5).
Proof.
  intros Hk.
  assert (Hcases : k = 1 \/ k = 2 \/ k = 3 \/ k = 4 \/ k = 5) by lia.
  destruct Hcases as [->|[->|[->|[->| ->]]]]; reflexivity.
Qed.

Lemma rated_cons (k : Z) (r : Review.t) (rows : list Review.t) :
  rated k (r :: rows)
  = ((if bool_decide (Review.rating r = k) then 1 else 0) + rated k rows)%nat.
Proof.
  unfold rated. rewrite filter_cons.
  destruct (decide (Review.rating r = k)) as [H|H].
  - now rewrite bool_decide_eq_true_2.
  - now rewrite bool_decide_eq_false_2.
Qed.

Lemma stats_loop (rows : list Review.t) (c1 c2 c3 c4 c5 : nat) :
  Forall (fun r => 1 <= Review.rating r <= 5) rows ->
  foldl (fun '(d, p, n) review =>
           (bump d (Review.rating review),
            if 4 <=? Review.rating review then S p else p,
            if Review.rating review <=? 2 then S n else n))
    (Review.histogram c1 c2 c3 c4 c5, (c4 + c5)%nat, (c1 + c2)%nat) rows
  = (Review.histogram (c1 + rated 1 rows) (c2 + rated 2 rows)
       (c3 + rated 3 rows) (c4 + rated 4 rows) (c5 + rated 5 rows),
     (c4 + rated 4 rows + (c5 + rated 5 rows))%nat,
     (c1 + rated 1 rows + (c2 + rated 2 rows))%nat).
Proof.
  intros Hall. revert c1 c2 c3 c4 c5.
  induction Hall as [|r rows Hr _ IH]; intros c1 c2 c3 c4 c5.
  - unfold rated. simpl. now rewrite !Nat.add_0_r.
  - cbn [foldl]. rewrite bump_histogram by exact Hr.
    rewrite !rated_cons.
    set (step := fun '(d, p, n) review =>
           (bump d (Review.rating review),
            if 4 <=? Review.rating review then S p else p,
            if Review.rating review <=? 2 then S n else n)).
    assert (Hcases : Review.rating r = 1 \/ Review.rating r = 2
                     \/ Review.rating r = 3 \/ Review.rating r = 4
                     \/ Review.rating r = 5) by lia.
    destruct Hcases as [E|[E|[E|[E|E]]]]; rewrite E.
    + transitivity
        (foldl step
           (Review.histogram (S c1) c2 c3 c4 c5, (c4 + c5)%nat,
            (S c1 + c2)%nat) rows); [reflexivity|].
      subst step. rewrite IH. simpl.
      repeat f_equal; lia.
    + transitivity
        (foldl step
           (Review.histogram c1 (S c2) c3 c4 c5, (c4 + c5)%nat,
            (c1 + S c2)%nat) rows);
        [simpl; now rewrite <- plus_n_Sm|].
      subst step. rewrite IH. simpl.
      repeat f_equal; lia.
    + transitivity
        (foldl step
           (Review.histogram c1 c2 (S c3) c4 c5, (c4 + c5)%nat,
            (c1 + c2)%nat) rows); [reflexivity|].
      subst step. rewrite IH. simpl.
      repeat f_equal; lia.
    + transitivity
        (foldl step
           (Review.histogram c1 c2 c3 (S c4) c5, (S c4 + c5)%nat,
            (c1 + c2)%nat) rows); [reflexivity|].
      subst step. rewrite IH. simpl.
      repeat f_equal; lia.
    + transitivity
        (foldl step
           (Review.histogram c1 c2 c3 c4 (S c5), (c4 + S c5)%nat,
            (c1 + c2)%nat) rows);
        [simpl; now rewrite <- plus_n_Sm|].
      subst step. rewrite IH. simpl.
      repeat f_equal; lia.
Qed.

Lemma rated_total (rows : list Review.t) :
  Forall (fun r => 1 <= Review.rating r <= 5) rows ->
  (rated 1 rows + rated 2 rows + rated 3 rows + rated 4 rows + rated 5 rows
   = length rows)%nat.
Proof.
  induction 1 as [|r rows Hr _ IH]; [reflexivity|].
  rewrite !rated_cons. simpl length.
  assert (Hcases : Review.rating r = 1 \/ Review.rating r = 2
                   \/ Review.rating r = 3 \/ Review.rating r = 4
                   \/ Review.rating r = 5) by lia.
  destruct Hcases as [E|[E|[E|[E|E]]]]; rewrite E; simpl; lia.
Qed.

Lemma rating_sum_bounds (rows : list Review.t) (a : Z) :
  Forall (fun r => 1 <= Review.rating r <= 5) rows ->
  a + Z.of_nat (length rows)
  <= foldl (fun acc review => acc + Review.rating review) a rows
  <= a + 5 * Z.of_nat (length rows).
Proof.
  intros Hall. revert a. induction Hall as [|r rows Hr _ IH]; intros a.
  - simpl. lia.
  - cbn [foldl]. specialize (IH (a + Review.rating r)).
    simpl length. lia.
Qed.

Lemma getStats_run (userId : string) (s : Store) :
  getStats userId s = (stats_of (received userId s), s).
Proof. reflexivity. Qed.

(** X19.  [getStats] only reads, and never divides by zero: with no review
    received it answers zeros.  With ratings from 1 to 5 the total is
    the number of reviews received, the distribution counts them by
    rating and adds up to the total, the positive ones are those rated
    4 or 5 and the negative ones those rated 1 or 2; the average is a
    number of tenths, from 1.0 to 5.0, within 0.05 of the mean. *)
Theorem getStats_invariants (s : Store) (userId : string) :
  let rows := received userId s in
  let st := result (getStats userId) s in
  let sum := foldl (fun acc review => acc + Review.rating review) 0 rows in
  run (getStats userId) s = s
  /\ (rows = [] ->
      st = {| Review.average := 0%Qc; Review.total := 0;
              Review.distribution := Review.histogram 0 0 0 0 0;
              Review.positive := 0; Review.negative := 0 |})
  /\ (Forall (fun r => 1 <= Review.rating r <= 5) rows ->
      Review.total st = length rows
      /\ Review.distribution st
         = Review.histogram (rated 1 rows) (rated 2 rows) (rated 3 rows)
             (rated 4 rows) (rated 5 rows)
      /\ (rated 1 rows + rated 2 rows + rated 3 rows + rated 4 rows
          + rated 5 rows = Review.total st)%nat
      /\ Review.positive st = (rated 4 rows + rated 5 rows)%nat
      /\ Review.negative st = (rated 1 rows + rated 2 rows)%nat
      /\ (rows <> [] ->
          exists tenths,
            Review.average st = Q2Qc (inject_Z tenths / 10)
            /\ 10 <= tenths <= 50
            /\ 20 * sum - Z.of_nat (length rows)
               <= 2 * tenths * Z.of_nat (length rows)
               <= 20 * sum + Z.of_nat (length rows))).
Proof.
  intros rows st sum. subst st. unfold run, result.
  rewrite getStats_run. cbn [fst snd]. fold rows.
  split; [reflexivity|]. split.
  - intros ->. reflexivity.
  - intros Hall. unfold stats_of.
    destruct (length rows =? 0)%nat eqn:Hlen.
    + apply Nat.eqb_eq in Hlen.
      assert (Hnil : rows = []) by (destruct rows; [reflexivity|discriminate]).
      rewrite Hnil. simpl. repeat split; try reflexivity.
      intros H. contradiction.
    + apply Nat.eqb_neq in Hlen.
      pose proof (stats_loop rows 0 0 0 0 0 Hall) as Hloop.
      cbn [Nat.add] in Hloop. rewrite Hloop.
      cbn [Review.total Review.distribution Review.positive Review.negative
           Review.average].
      split; [reflexivity|]. split; [reflexivity|].
      split; [apply (rated_total _ Hall)|].
      split; [reflexivity|]. split; [reflexivity|].
      intros _.
      pose proof (rating_sum_bounds rows 0 Hall) as Hsum.
      set (points := foldl (fun acc review => acc + Review.rating review)
                       0 rows) in *.
      destruct (Z.of_nat (length rows)) as [|p|p] eqn:Hp;
        [lia | | lia].
      exists ((20 * points + Z.pos p) / (2 * Z.pos p)).
      rewrite Math_round_mean. split; [reflexivity|].
      pose proof (Z.div_mod (20 * points + Z.pos p) (2 * Z.pos p) ltac:(lia))
        as Hdm.
      pose proof (Z.mod_pos_bound (20 * points + Z.pos p) (2 * Z.pos p)
                    ltac:(lia)) as Hmod.
      split; nia.
Qed.

(** ** Vehicle images *)

(** X20.  Every patch of [vehicle_images] is stamped with [updated_at] by the
    hook of [BaseModel], a column the table does not have:
    [setPrimary] ends in the DBError of its first statement, after one
    reading of the clock, and no image is written; [findPrimary]
    answers as before. *)
Theorem setPrimary_fails (s : Store) (vehicleId imageId : string) :
  outcome (setPrimary vehicleId imageId) s = inl DBError
  /\ images (after (setPrimary vehicleId imageId) s) = images s
  /\ (forall v, result (findPrimary v) (after (setPrimary vehicleId imageId) s)
                = result (findPrimary v) s)
  /\ clock_reads (base (after (setPrimary vehicleId imageId) s))
     = S (clock_reads (base s))
  /\ ~ "updated_at" ∈ VehicleImage.columns.
Proof.
  repeat split; try reflexivity.
  unfold VehicleImage.columns. rewrite !elem_of_cons, elem_of_nil.
  intros H. repeat destruct H as [H|H]; try discriminate H. exact H.
Qed.

(** X21.  [reorder] of no image does nothing and succeeds; given at least one
    id it ends in the DBError of its first statement, whether or not
    the id is that of an image, and no image is written. *)
Theorem reorder_fails (s : Store) (vehicleId : string)
  (imageIds : list string) :
  (imageIds = [] ->
   outcome (reorder vehicleId imageIds) s = inr tt
   /\ after (reorder vehicleId imageIds) s = s)
  /\ (imageIds <> [] ->
      outcome (reorder vehicleId imageIds) s = inl DBError
      /\ clock_reads (base (after (reorder vehicleId imageIds) s))
         = S (clock_reads (base s)))
  /\ images (after (reorder vehicleId imageIds) s) = images s.
Proof.
  destruct imageIds as [|imageId rest].
  - split; [intros _; split; reflexivity|].
    split; [intros H; now contradict H | reflexivity].
  - split; [discriminate|]. split; [|reflexivity].
    intros _. split; reflexivity.
Qed.

(** ** Conversations and messages *)

(** X22.  [markConversationMessagesAsRead] gives [read_at] a [Date], which
    the schema declares a string or null: the patch fails validation,
    the call ends in a ValidationError instead of a count, after one
    reading of the clock, and no message is written: the messages that
    were unread stay unread. *)
Theorem markConversationMessagesAsRead_throws (s : Store)
  (conversationId userId : string) :
  let s' := after (markConversationMessagesAsRead conversationId userId) s in
  outcome (markConversationMessagesAsRead conversationId userId) s
  = inl ValidationError
  /\ messages s' = messages s
  /\ conversations s' = conversations s
  /\ count_rows (unread_for conversationId userId) (messages s')
     = count_rows (unread_for conversationId userId) (messages s)
  /\ clock_reads (base s') = S (clock_reads (base s)).
Proof. repeat split; reflexivity. Qed.

Lemma Conversation_markAsRead_run (this : Conversation.t) (userId : string)
  (s : Store) :
  Conversation_markAsRead this userId s
  = if Conversation.isParticipant this userId then
      (inl ValidationError,
       with_base (exec (new_Date;; new_Date) (base s))
         (run (update_conversations
                 (patch_where (by_id (Conversation.id this))
                    (Conversation.patch
                       (cleared this userId
                          (clock (base s) (clock_reads (base s)))))))
            s))
    else (inr tt, s).
Proof.
  unfold Conversation_markAsRead, Conversation.isParticipant, cleared.
  destruct (Conversation.isBuyer this userId); [reflexivity|].
  destruct (Conversation.isSeller this userId); reflexivity.
Qed.

(** X23.  [markAsRead] by a user who is neither the buyer nor the seller does
    nothing and succeeds.  By a participant it first brings that user's
    unread count of the stored row to 0, leaving the other count and the
    other conversations as they were, and then fails: the patch of the
    messages gives [read_at] a [Date] and is refused with a
    ValidationError, so that no message is marked read although the
    count says so. *)
Theorem Conversation_markAsRead_clears (s : Store) (this : Conversation.t)
  (userId : string) :
  conversations s !! Conversation.id this = Some this ->
  let s' := after (Conversation_markAsRead this userId) s in
  (Conversation.isParticipant this userId = false ->
   outcome (Conversation_markAsRead this userId) s = inr tt /\ s' = s)
  /\ (Conversation.isParticipant this userId = true ->
      outcome (Conversation_markAsRead this userId) s = inl ValidationError
      /\ exists this1,
           conversations s' !! Conversation.id this = Some this1
           /\ Conversation.getUnreadCount this1 userId = 0
           /\ (forall other,
                 other <> userId ->
                 Conversation.getUnreadCount this1 other
                 = Conversation.getUnreadCount this other)
           /\ Conversation.last_message_at this1
              = Conversation.last_message_at this)
  /\ (forall k, k <> Conversation.id this ->
        conversations s' !! k = conversations s !! k)
  /\ messages s' = messages s
  /\ count_rows (unread_for (Conversation.id this) userId) (messages s')
     = count_rows (unread_for (Conversation.id this) userId) (messages s).
Proof.
  intros Hrow s'. subst s'. unfold outcome, after.
  rewrite Conversation_markAsRead_run.
  destruct (Conversation.isParticipant this userId) eqn:Hpart.
  - split; [discriminate|]. split; [|split; [|split; reflexivity]].
    + intros _. split; [reflexivity|].
      cbn [snd with_base conversations run update_conversations].
      rewrite lookup_patch_where, Hrow. cbn [fmap option_fmap option_map].
      unfold by_id. rewrite bool_decide_eq_true_2 by reflexivity.
      eexists. split; [reflexivity|].
      unfold Conversation.isParticipant in Hpart.
      unfold cleared, Conversation.getUnreadCount, Conversation.isBuyer,
        Conversation.isSeller in *.
      cbn [Conversation.patch Conversation.buyer_id Conversation.seller_id
           Conversation.buyer_unread_count Conversation.seller_unread_count
           Conversation.last_message_at].
      destruct (bool_decide (Conversation.buyer_id this = userId)) eqn:Hb.
      * cbn [default from_option id Conversation.set_buyer_unread_count
             Conversation.set_seller_unread_count
             Conversation.set_last_message_at].
        split; [reflexivity|]. split; [|reflexivity].
        intros other Hother. apply bool_decide_eq_true in Hb.
        rewrite (bool_decide_eq_false_2 (Conversation.buyer_id this = other))
          by congruence.
        reflexivity.
      * cbn [orb] in Hpart. rewrite Hpart.
        cbn [default from_option id Conversation.set_buyer_unread_count
             Conversation.set_seller_unread_count
             Conversation.set_last_message_at].
        split; [reflexivity|]. split; [|reflexivity].
        intros other Hother. apply bool_decide_eq_true in Hpart.
        rewrite (bool_decide_eq_false_2 (Conversation.seller_id this = other))
          by congruence.
        now destruct (bool_decide (Conversation.buyer_id this = other)).
    + intros k Hk.
      cbn [snd with_base conversations run update_conversations].
      rewrite lookup_patch_where. unfold by_id.
      rewrite bool_decide_eq_false_2 by exact Hk.
      now destruct (conversations s !! k).
  - split; [intros _; split; reflexivity|]. split; [discriminate|].
    repeat split; reflexivity.
Qed.

(** The buyer reads the sample conversation. *)
Lemma Conversation_markAsRead_clears_witness :
  conversations Demo.store !! Conversation.id Demo.chat = Some Demo.chat
  /\ Conversation.getUnreadCount Demo.chat "usr-buyer" = 2
  /\ outcome (Conversation_markAsRead Demo.chat "usr-buyer") Demo.store
     = inl ValidationError
  /\ messages (after (Conversation_markAsRead Demo.chat "usr-buyer")
                 Demo.store)
     = messages Demo.store.
Proof.
  assert (Hrow : conversations Demo.store !! Conversation.id Demo.chat
                 = Some Demo.chat) by reflexivity.
  split; [exact Hrow|]. split; [reflexivity|].
  destruct (Conversation_markAsRead_clears Demo.store Demo.chat "usr-buyer"
              Hrow) as (_ & Hpart & _ & Hmsg & _).
  split; [exact (proj1 (Hpart eq_refl)) | exact Hmsg].
Defined.

(** X24.  [incrementUnreadCount] gives [last_message_at] a [Date], which the
    schema declares a string or null: whoever the sender is, the patch
    fails validation, the call ends in a ValidationError after one
    reading of the clock, and no conversation is written: no unread
    count grows. *)
Theorem incrementUnreadCount_throws (s : Store) (this : Conversation.t)
  (senderId : string) :
  let s' := after (incrementUnreadCount this senderId) s in
  outcome (incrementUnreadCount this senderId) s = inl ValidationError
  /\ conversations s' = conversations s
  /\ messages s' = messages s
  /\ clock_reads (base s') = S (clock_reads (base s)).
Proof. repeat split; reflexivity. Qed.

(** ** Favorites *)

Lemma toggle_run (userId vehicleId : string) (s : Store) :
  let s' := after (toggle userId vehicleId) s in
  match first_row (same_favorite userId vehicleId) (favorites s) with
  | Some existing =>
      outcome (toggle userId vehicleId) s = inr false
      /\ favorites s' = delete (Favorite.id existing) (favorites s)
      /\ vehicles (base s')
         = patch_where (by_id vehicleId)
             (incremented (-1) (Some (clock (base s) (clock_reads (base s)))))
             (vehicles (base s))
  | None =>
      outcome (toggle userId vehicleId) s = inl DBError
      /\ favorites s' = favorites s
      /\ vehicles (base s') = vehicles (base s)
      /\ uuid_reads s' = S (uuid_reads s)
      /\ clock_reads (base s') = S (clock_reads (base s))
  end.
Proof.
  unfold outcome, after, toggle, resolve, read, mbind, Try_bind.
  destruct (first_row (same_favorite userId vehicleId) (favorites s))
    as [existing|]; repeat split.
Qed.

Lemma Favorite_exists_true (userId vehicleId : string) (s : Store) :
  result (Favorite_exists userId vehicleId) s = true
  <-> exists k f, favorites s !! k = Some f
                  /\ Favorite.user_id f = userId
                  /\ Favorite.vehicle_id f = vehicleId.
Proof.
  unfold result, Favorite_exists, read, mbind, D_bind. cbn.
  destruct (first_row (same_favorite userId vehicleId) (favorites s))
    as [f|] eqn:E; cbn; split.
  - intros _. apply first_row_Some in E as (k & Hk & Hp).
    apply andb_true_iff in Hp as [Hu Hv].
    apply bool_decide_eq_true in Hu, Hv. eauto.
  - reflexivity.
  - discriminate.
  - intros (k & f & Hk & Hu & Hv). rewrite first_row_None in E.
    specialize (E k f Hk). unfold same_favorite in E.
    rewrite !bool_decide_eq_true_2 in E by assumption. discriminate.
Qed.

Lemma count_rows_delete {A} (p : A -> bool) (rows : gmap string A)
  (k : string) (x : A) :
  rows !! k = Some x ->
  count_rows p rows
  = ((if p x then 1 else 0) + count_rows p (delete k rows))%nat.
Proof.
  intros Hk. rewrite <- (insert_delete_id rows k x Hk) at 1.
  apply count_rows_insert, lookup_delete_eq.
Qed.

Lemma Favorite_exists_false (userId vehicleId : string) (s : Store) :
  result (Favorite_exists userId vehicleId) s = false
  <-> forall k f, favorites s !! k = Some f ->
                  ~ (Favorite.user_id f = userId
                     /\ Favorite.vehicle_id f = vehicleId).
Proof.
  rewrite <- not_true_iff_false, Favorite_exists_true. split.
  - intros Hno k f Hk [Hu Hv]. apply Hno. eauto.
  - intros Hno (k & f & Hk & Hu & Hv). apply (Hno k f Hk). auto.
Qed.

Lemma first_row_same_favorite (userId vehicleId : string) (s : Store) :
  match first_row (same_favorite userId vehicleId) (favorites s) with
  | Some existing =>
      (exists k, favorites s !! k = Some existing)
      /\ Favorite.user_id existing = userId
      /\ Favorite.vehicle_id existing = vehicleId
  | None =>
      forall k f, favorites s !! k = Some f ->
                  ~ (Favorite.user_id f = userId
                     /\ Favorite.vehicle_id f = vehicleId)
  end.
Proof.
  destruct (first_row _ _) as [e|] eqn:E.
  - apply first_row_Some in E as (k & Hk & Hp).
    apply andb_true_iff in Hp as [Hu Hv].
    apply bool_decide_eq_true in Hu, Hv. eauto.
  - rewrite first_row_None in E. intros k f Hk [Hu Hv].
    specialize (E k f Hk). unfold same_favorite in E.
    rewrite !bool_decide_eq_true_2 in E by assumption. discriminate.
Qed.

(** X25.  On a favorites table as the database keeps it, [toggle] removes the
    favorite of a user who had marked the vehicle and answers that
    nothing was added.  For a user who had not, it fails: the row to
    insert is stamped with [updated_at] by the hook of [BaseModel], a
    column [favorites] does not have, and the call ends in a DBError
    with no favorite added and no vehicle written.  So [toggle] never
    answers [added], every other pair of user and vehicle is as before,
    and the table keeps one row per id and at most one favorite per
    user and vehicle. *)
Theorem toggle_flips (s : Store) (userId vehicleId : string) :
  favorites_table (favorites s) ->
  let s' := after (toggle userId vehicleId) s in
  (result (Favorite_exists userId vehicleId) s = true ->
   outcome (toggle userId vehicleId) s = inr false
   /\ result (Favorite_exists userId vehicleId) s' = false)
  /\ (result (Favorite_exists userId vehicleId) s = false ->
      outcome (toggle userId vehicleId) s = inl DBError
      /\ favorites s' = favorites s
      /\ vehicles (base s') = vehicles (base s))
  /\ outcome (toggle userId vehicleId) s <> inr true
  /\ (forall u v,
        (u, v) <> (userId, vehicleId) ->
        result (Favorite_exists u v) s' = result (Favorite_exists u v) s)
  /\ favorites_table (favorites s')
  /\ ~ "updated_at" ∈ Favorite.columns.
Proof.
  intros [Hkeys Huniq] s'.
  pose proof (toggle_run userId vehicleId s) as Hcase.
  pose proof (first_row_same_favorite userId vehicleId s) as Hfirst.
  fold s' in Hcase.
  assert (Hcols : ~ "updated_at" ∈ Favorite.columns).
  { unfold Favorite.columns. rewrite !elem_of_cons, elem_of_nil.
    intros H. repeat destruct H as [H|H]; try discriminate H. exact H. }
  destruct (first_row (same_favorite userId vehicleId) (favorites s))
    as [e|].
  - destruct Hcase as (Hout & Hfav & _).
    destruct Hfirst as ((ke & Hke) & Hu & Hv).
    rewrite (Hkeys _ _ Hke) in Hfav.
    assert (Hgone : forall k f, favorites s' !! k = Some f ->
                                k <> ke /\ favorites s !! k = Some f).
    { intros k f. rewrite Hfav. intros H.
      now apply lookup_delete_Some in H. }
    assert (Hnow : result (Favorite_exists userId vehicleId) s' = false).
    { apply Favorite_exists_false. intros k f Hk [Hu' Hv'].
      apply Hgone in Hk as [Hne Hk]. apply Hne.
      apply (Huniq k ke f e Hk Hke); congruence. }
    split; [intros _; split; assumption|].
    split.
    { intros Hno. exfalso.
      apply (proj1 (Favorite_exists_false _ _ _) Hno ke e Hke). auto. }
    split; [rewrite Hout; discriminate|].
    split; [|split; [|exact Hcols]].
    + intros u v Hne. apply eq_true_iff_eq.
      rewrite !Favorite_exists_true. split.
      * intros (k & f & Hk & Huv). apply Hgone in Hk as [_ Hk]. eauto.
      * intros (k & f & Hk & Hu' & Hv'). exists k, f. split; [|auto].
        rewrite Hfav. apply lookup_delete_Some. split; [|exact Hk].
        intros <-. apply Hne. congruence.
    + split.
      * intros k f Hk. apply Hgone in Hk as [_ Hk]. eauto.
      * intros k1 k2 f1 f2 H1 H2.
        apply Hgone in H1 as [_ H1]. apply Hgone in H2 as [_ H2]. eauto.
  - destruct Hcase as (Hout & Hfav & Hveh & _).
    split.
    { intros Hyes. exfalso.
      apply Favorite_exists_true in Hyes as (k & f & Hk & Hu & Hv).
      apply (Hfirst k f Hk). auto. }
    split; [intros _; repeat split; assumption|].
    split; [rewrite Hout; discriminate|].
    split; [|split; [|exact Hcols]].
    + intros u v _. apply eq_true_iff_eq.
      rewrite !Favorite_exists_true. now rewrite Hfav.
    + rewrite Hfav. split; assumption.
Qed.

Lemma favorites_count_of_patch (k v : string) (f : Vehicle.t -> Vehicle.t)
  (s s' : Store) :
  vehicles (base s') = patch_where (by_id k) f (vehicles (base s)) ->
  favorites_count_of v s'
  = from_option
      (fun row => Vehicle.favorites_count
                    (if bool_decide (v = k) then f row else row))
      0 (vehicles (base s) !! v).
Proof.
  intros H. unfold favorites_count_of. rewrite H, lookup_patch_where.
  unfold by_id. now destruct (vehicles (base s) !! v).
Qed.

Lemma toggle_counts (s : Store) (userId vehicleId v : string) :
  favorites_table (favorites s) ->
  is_Some (vehicles (base s) !! vehicleId) ->
  let s' := after (toggle userId vehicleId) s in
  let change :=
    if bool_decide (v = vehicleId)
       && result (Favorite_exists userId vehicleId) s
    then -1 else 0 in
  result (countByVehicle v) s' = result (countByVehicle v) s + change
  /\ favorites_count_of v s' = favorites_count_of v s + change.
Proof.
  intros [Hkeys _] [veh Hveh] s' change.
  pose proof (toggle_run userId vehicleId s) as Hcase.
  pose proof (first_row_same_favorite userId vehicleId s) as Hfirst.
  fold s' in Hcase.
  assert (Hexists : result (Favorite_exists userId vehicleId) s
                    = match first_row (same_favorite userId vehicleId)
                              (favorites s) with
                      | Some _ => true
                      | None => false
                      end) by reflexivity.
  subst change. rewrite Hexists. clear Hexists.
  unfold result, countByVehicle, read. cbn [fst].
  destruct (first_row (same_favorite userId vehicleId) (favorites s))
    as [e|].
  - destruct Hcase as (_ & Hfav & Hvehs).
    destruct Hfirst as ((ke & Hke) & Hu & Hv).
    rewrite (Hkeys _ _ Hke) in Hfav.
    rewrite (favorites_count_of_patch _ v _ s s' Hvehs).
    rewrite Hfav.
    rewrite (count_rows_delete _ (favorites s) ke e Hke), Hv.
    unfold favorites_count_of.
    destruct (decide (v = vehicleId)) as [->|Hne].
    + rewrite !bool_decide_eq_true_2 by reflexivity. rewrite Hveh.
      cbn [andb from_option incremented Vehicle.patch Vehicle.favorites_count
           Vehicle.set_favorites_count default id].
      split; lia.
    + rewrite (bool_decide_eq_false_2 (vehicleId = v)) by congruence.
      rewrite (bool_decide_eq_false_2 (v = vehicleId)) by congruence.
      cbn [andb Nat.add]. split; [lia|].
      destruct (vehicles (base s) !! v); cbn [from_option]; lia.
  - destruct Hcase as (_ & Hfav & Hvehs & _).
    unfold favorites_count_of. rewrite Hfav, Hvehs.
    rewrite andb_false_r. split; lia.
Qed.

(** X26.  For a stored vehicle, [toggle] moves the number of favorites of the
    vehicle and its [favorites_count] column by the same step: one down
    when it removed the favorite, none when it failed to add one; it
    leaves both alone for every other vehicle.  The column and the
    count of rows stay as far apart as they were. *)
Theorem toggle_count_in_step (s : Store) (userId vehicleId v : string) :
  favorites_table (favorites s) ->
  is_Some (vehicles (base s) !! vehicleId) ->
  let s' := after (toggle userId vehicleId) s in
  let change :=
    if bool_decide (v = vehicleId)
       && result (Favorite_exists userId vehicleId) s
    then -1 else 0 in
  result (countByVehicle v) s' = result (countByVehicle v) s + change
  /\ favorites_count_of v s' = favorites_count_of v s + change
  /\ favorites_count_of v s' - result (countByVehicle v) s'
     = favorites_count_of v s - result (countByVehicle v) s.
Proof.
  intros Htable Hveh s' change.
  destruct (toggle_counts s userId vehicleId v Htable Hveh)
    as [Hrows Hcol].
  fold s' in Hrows, Hcol. fold change in Hrows, Hcol.
  repeat split; [exact Hrows|exact Hcol|lia].
Qed.

Lemma updateFavoriteCount_run (this : Vehicle.t) (s : Store) :
  let s1 := after (updateFavoriteCount this) s in
  outcome (updateFavoriteCount this) s = inr tt
  /\ favorites s1 = favorites s
  /\ vehicles (base s1)
     = patch_where (by_id (Vehicle.id this))
         (Vehicle.patch
            {| Vehicle.set_status := None;
               Vehicle.set_sold_at := None;
               Vehicle.set_favorites_count :=
                 Some (result (countByVehicle (Vehicle.id this)) s);
               Vehicle.set_updated_at :=
                 Some (clock (base s) (clock_reads (base s))) |})
         (vehicles (base s)).
Proof. repeat split; reflexivity. Qed.

(** X27.  [updateFavoriteCount] of a stored vehicle succeeds, sets its
    [favorites_count] column to the number of its favorites and touches
    no favorite; a [toggle] that follows, for any user and stored
    vehicle, leaves the column equal to that number. *)
Theorem updateFavoriteCount_resyncs (s : Store) (this : Vehicle.t)
  (userId vehicleId : string) :
  is_Some (vehicles (base s) !! Vehicle.id this) ->
  is_Some (vehicles (base s) !! vehicleId) ->
  favorites_table (favorites s) ->
  let s1 := after (updateFavoriteCount this) s in
  let s2 := after (toggle userId vehicleId) s1 in
  outcome (updateFavoriteCount this) s = inr tt
  /\ favorites s1 = favorites s
  /\ favorites_count_of (Vehicle.id this) s1
     = result (countByVehicle (Vehicle.id this)) s1
  /\ favorites_count_of (Vehicle.id this) s2
     = result (countByVehicle (Vehicle.id this)) s2.
Proof.
  intros [veh Hthis] [veh' Hveh] Htable s1 s2.
  destruct (updateFavoriteCount_run this s) as (Hout & Hfav & Hvehs).
  fold s1 in Hfav, Hvehs.
  assert (Hsync : favorites_count_of (Vehicle.id this) s1
                  = result (countByVehicle (Vehicle.id this)) s1).
  { rewrite (favorites_count_of_patch _ _ _ s s1 Hvehs), Hthis.
    rewrite bool_decide_eq_true_2 by reflexivity.
    unfold result, countByVehicle, read. cbn. now rewrite Hfav. }
  split; [exact Hout|]. split; [exact Hfav|]. split; [exact Hsync|].
  destruct (toggle_counts s1 userId vehicleId (Vehicle.id this))
    as [Hrows Hcol].
  - now rewrite Hfav.
  - rewrite Hvehs, lookup_patch_where, Hveh. eauto.
  - fold s2 in Hrows, Hcol. lia.
Qed.

(** ** The properties on the sample store *)

Lemma Demo_favorites_table : favorites_table (favorites Demo.store).
Proof.
  unfold Demo.store; cbn [favorites]. split.
  - intros k f Hk. apply lookup_singleton_Some in Hk as [<- <-]. reflexivity.
  - intros k1 k2 f1 f2 H1 H2 _ _.
    apply lookup_singleton_Some in H1 as [<- _].
    apply lookup_singleton_Some in H2 as [<- _]. reflexivity.
Qed.

(** The buyer unmarks the listing, the seller cannot mark it. *)
Lemma toggle_flips_witness :
  favorites_table (favorites Demo.store)
  /\ outcome (toggle "usr-buyer" "veh-1") Demo.store = inr false
  /\ outcome (toggle "usr-seller" "veh-1") Demo.store = inl DBError.
Proof.
  split; [exact Demo_favorites_table|].
  split.
  - exact (proj1 (proj1 (toggle_flips Demo.store "usr-buyer" "veh-1"
                           Demo_favorites_table) eq_refl)).
  - reflexivity.
Defined.

Lemma toggle_count_in_step_witness :
  favorites_table (favorites Demo.store)
  /\ is_Some (vehicles (base Demo.store) !! "veh-1")
  /\ favorites_count_of "veh-1" (after (toggle "usr-buyer" "veh-1") Demo.store)
     - result (countByVehicle "veh-1")
         (after (toggle "usr-buyer" "veh-1") Demo.store)
     = favorites_count_of "veh-1" Demo.store
       - result (countByVehicle "veh-1") Demo.store.
Proof.
  assert (Hveh : is_Some (vehicles (base Demo.store) !! "veh-1"))
    by (eexists; reflexivity).
  split; [exact Demo_favorites_table|]. split; [exact Hveh|].
  exact (proj2 (proj2 (toggle_count_in_step Demo.store "usr-buyer" "veh-1"
                         "veh-1" Demo_favorites_table Hveh))).
Defined.

Lemma updateFavoriteCount_resyncs_witness :
  is_Some (vehicles (base Demo.store) !! Vehicle.id (Sample.listing RESERVED))
  /\ favorites_table (favorites Demo.store)
  /\ favorites_count_of "veh-1"
       (after (toggle "usr-buyer" "veh-1")
          (after (updateFavoriteCount (Sample.listing RESERVED)) Demo.store))
     = result (countByVehicle "veh-1")
         (after (toggle "usr-buyer" "veh-1")
            (after (updateFavoriteCount (Sample.listing RESERVED))
               Demo.store)).
Proof.
  assert (Hveh : is_Some (vehicles (base Demo.store)
                            !! Vehicle.id (Sample.listing RESERVED)))
    by (eexists; reflexivity).
  split; [exact Hveh|]. split; [exact Demo_favorites_table|].
  exact (proj2 (proj2 (proj2
           (updateFavoriteCount_resyncs Demo.store (Sample.listing RESERVED)
              "usr-buyer" "veh-1" Hveh Hveh Demo_favorites_table)))).
Defined.

(** ** The default commission rules *)

Lemma named_true (name : string) (rows : list CommissionSetting.t) :
  named name rows = true
  <-> exists r, r ∈ rows /\ CommissionSetting.name r = name.
Proof.
  unfold named.
  destruct (filter (fun r => CommissionSetting.name r = name) rows)
    as [|r l] eqn:E; split.
  - discriminate.
  - intros (r & Hr & Hn).
    assert (Hin : r ∈ filter (fun r => CommissionSetting.name r = name) rows)
      by (apply list_elem_of_filter; auto).
    rewrite E in Hin. now apply elem_of_nil in Hin.
  - intros _. exists r.
    assert (Hin : r ∈ filter (fun r => CommissionSetting.name r = name) rows)
      by (rewrite E; apply elem_of_cons; now left).
    apply list_elem_of_filter in Hin as [Hn Hr]. auto.
  - reflexivity.
Qed.

Lemma createDefault_loop_cons (setting : Draft.t) (rest : list Draft.t)
  (s : Store) :
  exists s1,
    run (createDefault_loop (setting :: rest)) s
    = run (createDefault_loop rest) s1
    /\ if named (Draft.name setting) (commission_settings (base s))
       then s1 = s
       else commission_settings (base s1)
            = commission_settings (base s)
              ++ [stored_as (uuids s (uuid_reads s))
                    (clock (base s) (clock_reads (base s))) setting].
Proof.
  unfold run. cbn [createDefault_loop].
  unfold mbind, D_bind, read. cbn.
  destruct (named (Draft.name setting) (commission_settings (base s)));
    cbn; eexists; split; reflexivity.
Qed.

Lemma filter_iff_in {A} (P Q : A -> Prop) `{!forall x, Decision (P x)}
  `{!forall x, Decision (Q x)} (l : list A) :
  (forall x, x ∈ l -> P x <-> Q x) -> filter P l = filter Q l.
Proof.
  induction l as [|a l IH]; intros Hpq; [reflexivity|].
  assert (Ha : P a <-> Q a) by (apply Hpq, elem_of_cons; now left).
  assert (Hl : filter P l = filter Q l).
  { apply IH. intros x Hx. apply Hpq, elem_of_cons. now right. }
  destruct (decide (P a)) as [HP|HP].
  - rewrite !filter_cons_True by tauto. now rewrite Hl.
  - rewrite !filter_cons_False by tauto. exact Hl.
Qed.

Lemma createDefault_loop_spec (settings : list Draft.t) :
  NoDup (Draft.name <$> settings) ->
  forall s,
  exists added,
    commission_settings (base (run (createDefault_loop settings) s))
    = commission_settings (base s) ++ added
    /\ Forall2 (fun row setting => exists id now, row = stored_as id now setting)
         added
         (filter
            (fun setting =>
               named (Draft.name setting) (commission_settings (base s))
               = false)
            settings).
Proof.
  induction settings as [|d rest IH]; intros Hnodup s.
  - exists []. split; [now rewrite app_nil_r|constructor].
  - cbn [fmap list_fmap] in Hnodup. apply NoDup_cons in Hnodup as [Hd Hrest].
    destruct (createDefault_loop_cons d rest s) as (s1 & -> & Hs1).
    destruct (IH Hrest s1) as (added & Hrows & Hadded).
    destruct (named (Draft.name d) (commission_settings (base s))) eqn:Hn.
    + subst s1. exists added. split; [exact Hrows|].
      rewrite filter_cons_False; [exact Hadded|]. now rewrite Hn.
    + set (row := stored_as (uuids s (uuid_reads s))
                    (clock (base s) (clock_reads (base s))) d) in *.
      exists (row :: added). split.
      { rewrite Hrows, Hs1, <- app_assoc. reflexivity. }
      rewrite filter_cons_True by exact Hn.
      constructor; [subst row; eauto|].
      rewrite (filter_iff_in _
                 (fun setting =>
                    named (Draft.name setting) (commission_settings (base s1))
                    = false)); [exact Hadded|].
      intros d' Hd'. rewrite <- !not_true_iff_false, !named_true, Hs1.
      split; intros Hno (r & Hr & Hname); apply Hno.
      * apply elem_of_app in Hr as [Hr|Hr]; [eauto|].
        apply elem_of_cons in Hr as [->|Hr];
          [|now apply elem_of_nil in Hr].
        cbn in Hname. exfalso. apply Hd. rewrite Hname.
        apply list_elem_of_fmap. eauto.
      * exists r. split; [|exact Hname].
        apply elem_of_app. now left.
Qed.

Lemma defaults_NoDup : NoDup (Draft.name <$> defaults).
Proof.
  apply (bool_decide_unpack (NoDup (Draft.name <$> defaults))).
  vm_compute. exact I.
Qed.

Lemma createDefault_loop_noop (settings : list Draft.t) (s : Store) :
  (forall d, d ∈ settings ->
     named (Draft.name d) (commission_settings (base s)) = true) ->
  run (createDefault_loop settings) s = s.
Proof.
  induction settings as [|d rest IH]; intros Hall; [reflexivity|].
  destruct (createDefault_loop_cons d rest s) as (s1 & -> & Hs1).
  rewrite Hall in Hs1 by (apply elem_of_cons; now left). subst s1.
  apply IH. intros d' Hd'. apply Hall, elem_of_cons. now right.
Qed.

Lemma createDefault_all_named (s : Store) (d : Draft.t) :
  d ∈ defaults ->
  named (Draft.name d)
    (commission_settings (base (run createDefault s))) = true.
Proof.
  intros Hd.
  destruct (createDefault_loop_spec defaults defaults_NoDup s)
    as (added & Hrows & Hadded).
  fold createDefault in Hrows. rewrite Hrows.
  destruct (named (Draft.name d) (commission_settings (base s))) eqn:Hn.
  - apply named_true in Hn as (r & Hr & Hname). apply named_true.
    exists r. split; [apply elem_of_app; now left|exact Hname].
  - assert (Hin : d ∈ filter
                    (fun setting =>
                       named (Draft.name setting)
                         (commission_settings (base s)) = false) defaults)
      by (apply list_elem_of_filter; auto).
    apply list_elem_of_lookup in Hin as [i Hi].
    destruct (Forall2_lookup_r _ _ _ _ _ Hadded Hi)
      as (row & Hrow & id & now & ->).
    apply named_true. eexists. split.
    + apply elem_of_app. right. eapply list_elem_of_lookup_2, Hrow.
    + reflexivity.
Qed.


(** X29.  A second [createDefault] changes nothing: no rule is added and
    neither the clock nor the uuid source is read. *)
Theorem createDefault_idempotent (s : Store) :
  run createDefault (run createDefault s) = run createDefault s.
Proof.
  apply createDefault_loop_noop. intros d Hd.
  now apply createDefault_all_named.
Qed.

